(** * The OpenAI adapter of the ADK sample agent (package [openaiadapter])

    A shallow embedding of the three translators of the adapter,
    [toOpenAIMessages], [toOpenAITools] and [toADKResponse], and the
    properties of them that the design document states; then of the
    rest of the adapter ([toOpenAISystemMessage], [GenerateContent]), the
    artifact service, the search tool, the configuration wizard and the
    launcher's handling of arguments and environment, with further
    properties read off the code.

    Conventions of the embedding.
    - A Go [string] and a Go [[]byte] are both byte sequences.  Strings are
      [string] (a list of 8-bit characters), byte slices are [list byte];
      the conversions [string(b)] and [[]byte(s)] are
      [string_of_list_byte] and [list_byte_of_string].
    - A pointer is modelled by the value it points to.  It is an [option]
      exactly where the code tests it against [nil] ([InlineData],
      [FunctionCall], [FunctionResponse]); the code dereferences every
      other pointer unconditionally.
    - A nil slice or map is identified with the empty one.
    - [encoding/json] is not part of the repository: the translators are
      defined over the type classes [Marshaler] and [Unmarshaler], and
      every general theorem holds for whatever codec is plugged in.  A
      reference codec (module [refjson]) is used to run examples.
    - [log.Printf] calls write to the process log only and are left out.
    - Line numbers are those of the adapter's source file. *)

From Stdlib Require Import ZArith.
From Stdlib.Strings Require Import Ascii String Byte.
From stdpp Require Import gmap strings list fin_maps pretty sorting.

#[local] Set Warnings "-register-all".
#[local] Open Scope string_scope.
#[local] Open Scope list_scope.

(** ** Dynamic values ([any]) *)

(** The values of Go's [any] that occur in JSON-shaped data: what
    [json.Unmarshal] stores into an [any], plus [[]string], which
    [toADKResponse] builds itself.  Numbers are integers here; the codec
    classes below keep the theorems independent of that choice. *)
Inductive any : Type :=
  | nil_any
  | of_bool (b : bool)
  | of_number (n : Z)
  | of_string (s : string)
  | of_slice (l : list any)
  | of_strings (l : list string)
  | of_map (m : gmap string any).

(** [val.(string)]: the type assertion with the comma-ok form. *)
Definition as_string (val : any) : option string :=
  match val with
  | of_string s => Some s
  | _ => None
  end.

(** ** The JSON codec as an interface *)

(** [json.Marshal(v)]: [Some b] is [(b, nil)], [None] is [(nil, err)]. *)
Class Marshaler := json_Marshal : any → option (list byte).

(** [json.Unmarshal(data, &x)] for a zero-valued [x] of type [T]:
    [Some x'] is a nil error with [x'] stored, [None] is an error. *)
Class Unmarshaler (T : Type) := json_Unmarshal : list byte → option T.

(** [string(b)] for the first result [b] of a call whose error result is
    discarded with [_]: the bytes on success, the nil slice otherwise. *)
Definition string_of_result (r : option (list byte)) : string :=
  match r with
  | Some b => string_of_list_byte b
  | None => ""
  end.

(** ** Data model *)

Module genai.

Record Blob := mkBlob {
  Blob_Data : list byte;
  Blob_MIMEType : string
}.

Record FunctionCall := mkFunctionCall {
  FunctionCall_Name : string;
  FunctionCall_Args : gmap string any
}.

Record FunctionResponse := mkFunctionResponse {
  FunctionResponse_Name : string;
  FunctionResponse_Response : gmap string any
}.

(** A [Part] is a struct, not a variant: any combination of its fields
    may be set. *)
Record Part := mkPart {
  Text : string;
  InlineData : option Blob;
  Part_FunctionCall : option FunctionCall;
  Part_FunctionResponse : option FunctionResponse
}.

Record Content := mkContent {
  Role : string;
  Parts : list Part
}.

(** [Parameters] is a [*genai.Schema]; the adapter only stores it into
    an [any]. *)
Record FunctionDeclaration := mkFunctionDeclaration {
  Name : string;
  Description : string;
  Parameters : any
}.

(** Of the request configuration the adapter reads the system
    instruction only. *)
Record GenerateContentConfig := mkGenerateContentConfig {
  SystemInstruction : option Content
}.

(** The four ways of building a part with one field set. *)
Definition NewPartFromText (s : string) : Part :=
  mkPart s None None None.
Definition NewPartFromBytes (b : list byte) (mime : string) : Part :=
  mkPart "" (Some (mkBlob b mime)) None None.
Definition NewPartFromFunctionCall (n : string) (a : gmap string any) : Part :=
  mkPart "" None (Some (mkFunctionCall n a)) None.
Definition NewPartFromFunctionResponse (n : string) (r : gmap string any) : Part :=
  mkPart "" None None (Some (mkFunctionResponse n r)).

End genai.

Module openai.

Definition ChatMessageRoleSystem : string := "system".
Definition ChatMessageRoleUser : string := "user".
Definition ChatMessageRoleAssistant : string := "assistant".
Definition ChatMessageRoleTool : string := "tool".
Definition ToolTypeFunction : string := "function".

Record FunctionCall := mkFunctionCall {
  Name : string;
  Arguments : string
}.

Record ToolCall := mkToolCall {
  ID : string;
  ToolCall_Type : string;
  Function : FunctionCall
}.

Record ChatCompletionMessage := mkMessage {
  Role : string;
  Content : string;
  ToolCalls : list ToolCall;
  ToolCallID : string
}.

Record FunctionDefinition := mkFunctionDefinition {
  FunctionDefinition_Name : string;
  Description : string;
  Parameters : any
}.

Record Tool := mkTool {
  Tool_Type : string;
  Tool_Function : FunctionDefinition
}.

Record ChatCompletionChoice := mkChoice {
  Message : ChatCompletionMessage
}.

Record ChatCompletionResponse := mkResponse {
  Choices : list ChatCompletionChoice
}.

Record ChatCompletionRequest := mkRequest {
  Model : string;
  Messages : list ChatCompletionMessage;
  Tools : list Tool
}.

End openai.

Module model.

Record LLMResponse := mkLLMResponse {
  Content : genai.Content
}.

End model.

(** A Go result pair [(T, error)]: a value with a nil error, or a nil
    value with the error's message. *)
Inductive result (T : Type) : Type :=
  | Ok (x : T)
  | Err (msg : string).
Arguments Ok {T} x.
Arguments Err {T} msg.

(** ** The adapter *)

Module openaiadapter.

Section Inbound.
Context {marshaler : Marshaler}.

(** The variables of the two nested loops of [toOpenAIMessages]. *)
Record loop_state := mkState {
  messages : list openai.ChatCompletionMessage;
  textContent : string;
  toolCalls : list openai.ToolCall
}.

(** Lines 185-190. *)
Definition normalize_role (role : string) : string :=
  if decide (role = "model") then openai.ChatMessageRoleAssistant
  else if decide (role = "") then openai.ChatMessageRoleUser
  else role.

(** The message literal of lines 206-212 and 254-260. *)
Definition pending_message (role textContent : string)
    (toolCalls : list openai.ToolCall) : openai.ChatCompletionMessage :=
  let msg := openai.mkMessage role textContent [] "" in
  if decide (0 < length toolCalls)
  then openai.mkMessage (openai.Role msg) (openai.Content msg) toolCalls
                        (openai.ToolCallID msg)
  else msg.

(** The message literal of lines 225-229. *)
Definition tool_message (fr : genai.FunctionResponse) : openai.ChatCompletionMessage :=
  let toolResponseID := "call_" +:+ genai.FunctionResponse_Name fr in
  let respJSON := json_Marshal (of_map (genai.FunctionResponse_Response fr)) in
  openai.mkMessage openai.ChatMessageRoleTool (string_of_result respJSON)
                   [] toolResponseID.

(** The tool-call literal of lines 240-247. *)
Definition tool_call (fc : genai.FunctionCall) : openai.ToolCall :=
  let argsJSON := json_Marshal (of_map (genai.FunctionCall_Args fc)) in
  openai.mkToolCall ("call_" +:+ genai.FunctionCall_Name fc)
    openai.ToolTypeFunction
    (openai.mkFunctionCall (genai.FunctionCall_Name fc)
                           (string_of_result argsJSON)).

(** The body of the inner loop, lines 203-249. *)
Definition part_step (role : string) (st : loop_state) (p : genai.Part) : loop_state :=
  match genai.Part_FunctionResponse p with
  | Some fr =>
      let st :=
        if decide (textContent st ≠ "" ∨ 0 < length (toolCalls st))
        then mkState
               (messages st ++ [pending_message role (textContent st) (toolCalls st)])
               "" []
        else st in
      mkState (messages st ++ [tool_message fr]) (textContent st) (toolCalls st)
  | None =>
      let textContent1 :=
        if decide (genai.Text p ≠ "")
        then textContent st +:+ genai.Text p
        else textContent st in
      let textContent2 :=
        match genai.InlineData p with
        | Some blob => textContent1 +:+ string_of_list_byte (genai.Blob_Data blob)
        | None => textContent1
        end in
      let toolCalls1 :=
        match genai.Part_FunctionCall p with
        | Some fc => toolCalls st ++ [tool_call fc]
        | None => toolCalls st
        end in
      mkState (messages st) textContent2 toolCalls1
  end.

(** The body of the outer loop, lines 185-262: [messages] is threaded
    through, the two accumulators start empty in every turn. *)
Definition content_step (msgs : list openai.ChatCompletionMessage)
    (c : genai.Content) : list openai.ChatCompletionMessage :=
  let role := normalize_role (genai.Role c) in
  let st := fold_left (part_step role) (genai.Parts c) (mkState msgs "" []) in
  if decide (textContent st ≠ "" ∨ 0 < length (toolCalls st))
  then messages st ++ [pending_message role (textContent st) (toolCalls st)]
  else messages st.

(** Lines 181-265.  The error result is [nil] on every path. *)
Definition toOpenAIMessages (contents : list genai.Content)
    : result (list openai.ChatCompletionMessage) :=
  Ok (fold_left content_step contents []).

(** Lines 267-278.  The error result is [nil] on every path. *)
Definition toOpenAISystemMessage (c : genai.Content)
    : result openai.ChatCompletionMessage :=
  let textContent :=
    fold_left (λ textContent p,
                 if decide (genai.Text p ≠ "")
                 then textContent +:+ genai.Text p
                 else textContent)
              (genai.Parts c) "" in
  Ok (openai.mkMessage openai.ChatMessageRoleSystem textContent [] "").

End Inbound.

(** The local struct of [toOpenAITools], lines 303-307. *)
Record ToolDef := mkToolDef {
  ToolDef_Name : string;
  ToolDef_Description : string;
  ToolDef_Parameters : any
}.

(** A value of the tool map, as far as [toOpenAITools] can observe it.
    [Declaration] is the outcome of the type assertion [v.(Declarer)]:
    [Some decl] when the dynamic type of the value implements [Declarer]
    and its method returns [decl], [None] when the assertion fails.
    [json_value] is the value as [json.Marshal] sees it. *)
Record tool_value := mkToolValue {
  Declaration : option genai.FunctionDeclaration;
  json_value : any
}.

Section Tools.
Context {marshaler : Marshaler} {unmarshaler : Unmarshaler ToolDef}.

(** Lines 288-314: [None] is the [continue] of line 301, [Some] carries
    the three variables [name], [description] and [parameters]. *)
Definition tool_metadata (v : tool_value) : option (string * string * any) :=
  let zero := ("", "", nil_any) in
  match Declaration v with
  | Some decl =>
      Some (genai.Name decl, genai.Description decl, genai.Parameters decl)
  | None =>
      match json_Marshal (json_value v) with
      | None => None
      | Some jsonBytes =>
          match json_Unmarshal jsonBytes with
          | Some td =>
              if decide (ToolDef_Name td ≠ "")
              then Some (ToolDef_Name td, ToolDef_Description td, ToolDef_Parameters td)
              else Some zero
          | None => Some zero
          end
      end
  end.

(** The body of the loop, lines 288-325. *)
Definition tool_step (tools : list openai.Tool) (v : tool_value) : list openai.Tool :=
  match tool_metadata v with
  | None => tools
  | Some (name, description, parameters) =>
      if decide (name ≠ "")
      then tools ++ [openai.mkTool openai.ToolTypeFunction
                       (openai.mkFunctionDefinition name description parameters)]
      else tools
  end.

(** Lines 285-328.  Go leaves the iteration order of [range] over a map
    unspecified: every order of the entries is a possible run, and
    [toOpenAITools adkTools tools] says that [tools] is the result of
    one of them. *)
Inductive toOpenAITools (adkTools : gmap string tool_value)
    : list openai.Tool → Prop :=
  | range_in_order (kvs : list (string * tool_value)) :
      kvs ≡ₚ map_to_list adkTools →
      toOpenAITools adkTools (fold_left tool_step kvs.*2 []).

End Tools.

Section Outbound.
Context {unmarshaler : Unmarshaler (gmap string any)}.

(** Lines 351-356. *)
Definition fix_artifact_names (args : gmap string any) : gmap string any :=
  match args !! "artifact_names" with
  | Some val =>
      match as_string val with
      | Some strVal => <["artifact_names" := of_strings [strVal]]> args
      | None => args
      end
  | None => args
  end.

(** The body of the loop, lines 343-363. *)
Definition tool_call_step (parts : list genai.Part) (tc : openai.ToolCall)
    : list genai.Part :=
  match json_Unmarshal (list_byte_of_string (openai.Arguments (openai.Function tc))) with
  | None => parts
  | Some args =>
      let args := fix_artifact_names args in
      parts ++ [genai.mkPart "" None
                  (Some (genai.mkFunctionCall (openai.Name (openai.Function tc)) args))
                  None]
  end.

(** Lines 330-369. *)
Definition toADKResponse (resp : openai.ChatCompletionResponse)
    : result model.LLMResponse :=
  match openai.Choices resp with
  | [] => Err "no choices returned from ollama"
  | choice :: _ =>
      let parts :=
        if decide (openai.Content (openai.Message choice) ≠ "")
        then [genai.mkPart (openai.Content (openai.Message choice)) None None None]
        else [] in
      let parts := fold_left tool_call_step (openai.ToolCalls (openai.Message choice)) parts in
      Ok (model.mkLLMResponse (genai.mkContent "model" parts))
  end.

End Outbound.

(** [model.LLMRequest], as far as [GenerateContent] reads it. *)
Record LLMRequest := mkLLMRequest {
  Contents : list genai.Content;
  Config : option genai.GenerateContentConfig;
  Tools : gmap string tool_value
}.

(** [client.CreateChatCompletion(ctx, request)]: the one exchange with
    the inference endpoint.  The endpoint is outside the repository; its
    answer to a request is a parameter. *)
Class ChatClient :=
  CreateChatCompletion : openai.ChatCompletionRequest →
                         result openai.ChatCompletionResponse.

(** Lines 113-116; the [client] field is the [ChatClient] in scope. *)
Record ModelStruct := mkModelStruct {
  model : string
}.

(** Lines 129-131. *)
Definition Name (m : ModelStruct) : string := "ollama-" +:+ model m.

Section Generate.
Context {marshaler : Marshaler} {unmarshaler_args : Unmarshaler (gmap string any)}
        {client : ChatClient}.

(** Lines 135-177 once [tools] is known: the pairs the iterator passes to
    [yield], in order.  [fmt.Errorf] with [%w] prefixes the message of
    the wrapped error. *)
Definition GenerateContent_yields (m : ModelStruct) (req : LLMRequest)
    (stream : bool) (tools : list openai.Tool) : list (result model.LLMResponse) :=
  match toOpenAIMessages (Contents req) with
  | Err err => [Err ("failed to convert messages: " +:+ err)]
  | Ok messages =>
      let with_system : result (list openai.ChatCompletionMessage) :=
        match Config req with
        | Some config =>
            match genai.SystemInstruction config with
            | Some instruction =>
                match toOpenAISystemMessage instruction with
                | Err err => Err ("failed to convert system instruction: " +:+ err)
                | Ok sysMsg => Ok ([sysMsg] ++ messages)
                end
            | None => Ok messages
            end
        | None => Ok messages
        end in
      match with_system with
      | Err msg => [Err msg]
      | Ok messages =>
          match CreateChatCompletion (openai.mkRequest (model m) messages tools) with
          | Err err => [Err ("ollama call failed: " +:+ err)]
          | Ok resp =>
              match toADKResponse resp with
              | Err err => [Err ("failed to convert response: " +:+ err)]
              | Ok adkResp => [Ok adkResp]
              end
          end
      end
  end.

End Generate.

Section GenerateTools.
Context {marshaler : Marshaler} {unmarshaler_args : Unmarshaler (gmap string any)}
        {unmarshaler_tool : Unmarshaler ToolDef} {client : ChatClient}.

(** Lines 133-179.  Lines 151-154 translate the tool map only if it is
    not empty; [toOpenAITools] leaves the order of the catalog open, so
    the yields of a call are a relation. *)
Inductive GenerateContent (m : ModelStruct) (req : LLMRequest) (stream : bool)
    : list (result model.LLMResponse) → Prop :=
  | generate_with_tools (tools : list openai.Tool) :
      0 < size (Tools req) →
      toOpenAITools (Tools req) tools →
      GenerateContent m req stream (GenerateContent_yields m req stream tools)
  | generate_without_tools :
      ¬ 0 < size (Tools req) →
      GenerateContent m req stream (GenerateContent_yields m req stream []).

End GenerateTools.

End openaiadapter.

(** ** The standard library's [strings] and [bufio], as far as they are used *)

Module strings.

(** [strings.HasPrefix(s, prefix)]. *)
Definition HasPrefix (s prefix : string) : bool := String.prefix prefix s.

(** [strings.Contains(s, substr)]: [substr] starts at some position of
    [s]. *)
Fixpoint Contains (s substr : string) : bool :=
  String.prefix substr s ||
  match s with
  | String _ s' => Contains s' substr
  | "" => false
  end.

(** [strings.TrimSpace] and [strings.ToLower] follow the Unicode tables;
    they are taken as an interface. *)
Class Unicode := mkUnicode {
  TrimSpace : string → string;
  ToLower : string → string
}.

End strings.

Module bufio.

(** [reader.ReadString(delim)] on a [bufio.Reader] over the remaining
    input: the bytes up to and including the first [delim], or all the
    remaining bytes at the end of the input (the code discards the error
    that comes with them), and the reader advanced past them. *)
Fixpoint ReadString (delim : ascii) (reader : string) : string * string :=
  match reader with
  | "" => ("", "")
  | String c rest =>
      if decide (c = delim) then (String c "", rest)
      else let '(line, rest') := ReadString delim rest in (String c line, rest')
  end.

End bufio.

(** ** The artifact service (package [services]) *)

Module services.

(** An entry of [os.ReadDir]. *)
Record DirEntry := mkDirEntry {
  Name : string;
  IsDir : bool
}.

(** The file system and [filepath.Join], outside the repository. *)
Class FileSystem := mkFileSystem {
  ReadDir : string → result (list DirEntry);
  ReadFile : string → result (list byte);
  Stat : string → result unit;
  Join : string → string → string
}.

Record FileSystemArtifactService := mkService {
  RootDir : string
}.

(** Of the requests only the file name is read. *)
Record LoadRequest := mkLoadRequest { LoadRequest_FileName : string }.
Record VersionsRequest := mkVersionsRequest { VersionsRequest_FileName : string }.

Record ListResponse := mkListResponse { ListResponse_FileNames : list string }.
Record LoadResponse := mkLoadResponse { LoadResponse_Part : genai.Part }.
Record VersionsResponse := mkVersionsResponse { VersionsResponse_Versions : list Z }.

Section Service.
Context {fs : FileSystem}.

(** The body of the loop of [List], lines 33-41 of the service. *)
Definition list_step (fileNames : list string) (entry : DirEntry) : list string :=
  if strings.HasPrefix (Name entry) "." then fileNames
  else if negb (IsDir entry) then fileNames ++ [Name entry]
  else fileNames.

(** [List], lines 25-44. *)
Definition List (s : FileSystemArtifactService) : result ListResponse :=
  match ReadDir (RootDir s) with
  | Err err => Err ("failed to read directory: " +:+ err)
  | Ok entries => Ok (mkListResponse (fold_left list_step entries []))
  end.

(** [Load], lines 47-73.  The [fmt.Printf] of line 59 writes to the
    console only. *)
Definition Load (s : FileSystemArtifactService) (req : LoadRequest)
    : result LoadResponse :=
  if strings.Contains (LoadRequest_FileName req) ".."
     || strings.HasPrefix (LoadRequest_FileName req) "/"
  then Err ("invalid filename: " +:+ LoadRequest_FileName req)
  else
    let fullPath := Join (RootDir s) (LoadRequest_FileName req) in
    match ReadFile fullPath with
    | Err err =>
        Err ("failed to read file " +:+ LoadRequest_FileName req +:+ ": " +:+ err)
    | Ok content =>
        Ok (mkLoadResponse
              (genai.mkPart "" None None
                 (Some (genai.mkFunctionResponse "load_artifacts"
                          {["content" := of_string (string_of_list_byte content)]}))))
    end.

(** [Versions], lines 77-84. *)
Definition Versions (s : FileSystemArtifactService) (req : VersionsRequest)
    : result VersionsResponse :=
  let fullPath := Join (RootDir s) (VersionsRequest_FileName req) in
  match Stat fullPath with
  | Ok _ => Ok (mkVersionsResponse [1%Z])
  | Err _ => Ok (mkVersionsResponse [])
  end.

End Service.

End services.

(** ** The search tool (package [tools]) *)

Module tools.

Record SearchArgs := mkSearchArgs { Query : string }.
Record SearchResult := mkSearchResult { Results : list string }.

(** The handler given to [functiontool.New], lines 27-43 of the tool.
    [fmt.Sprintf] with [%s] splices the query into the format. *)
Definition search_handler (args : SearchArgs) : result SearchResult :=
  let query := Query args in
  let results :=
    ["Result 1 for '" +:+ query +:+ "': This is a simulated search result.";
     "Result 2: details about " +:+ query +:+ " found on the web."] in
  let results :=
    if decide (query = "Capital of France" ∨ query = "capital of France")
    then ["The capital of France is Paris."]
    else results in
  Ok (mkSearchResult results).

End tools.

(** ** The configuration wizard (package [config]) and the launcher
       (package [main]) *)

Module config.

Record LLMConfig := mkLLMConfig {
  BaseURL : string;
  APIKey : string;
  ModelName : string
}.

Definition newline : ascii := "010"%char.

Section Wizard.
Context {unicode : strings.Unicode}.

(** [askProviderDetails], lines 50-96 of the wizard: the reader and the
    configuration it updates are passed through.  The prompts written to
    the console are left out. *)
Definition askProviderDetails (reader : string) (config : LLMConfig)
    : string * LLMConfig :=
  let '(choice, reader) := bufio.ReadString newline reader in
  let choice := strings.TrimSpace choice in
  if decide (choice = "2") then
    let '(url, reader) := bufio.ReadString newline reader in
    let config := mkLLMConfig (strings.TrimSpace url) (APIKey config) (ModelName config) in
    let '(key, reader) := bufio.ReadString newline reader in
    let config := mkLLMConfig (BaseURL config) (strings.TrimSpace key) (ModelName config) in
    let '(model, reader) := bufio.ReadString newline reader in
    let config := mkLLMConfig (BaseURL config) (APIKey config) (strings.TrimSpace model) in
    (reader, config)
  else
    let config := mkLLMConfig "http://localhost:11434/v1" (APIKey config) (ModelName config) in
    let config := mkLLMConfig (BaseURL config) "ollama" (ModelName config) in
    let config := mkLLMConfig (BaseURL config) (APIKey config) "qwen2.5:latest" in
    let '(confirm, reader) := bufio.ReadString newline reader in
    let confirm := strings.TrimSpace (strings.ToLower confirm) in
    if decide (confirm = "n" ∨ confirm = "no") then
      let '(url, reader) := bufio.ReadString newline reader in
      let config :=
        let val := strings.TrimSpace url in
        if decide (val ≠ "")
        then mkLLMConfig val (APIKey config) (ModelName config)
        else config in
      let '(model, reader) := bufio.ReadString newline reader in
      let config :=
        let val := strings.TrimSpace model in
        if decide (val ≠ "")
        then mkLLMConfig (BaseURL config) (APIKey config) val
        else config in
      (reader, config)
    else (reader, config).

(** [LoadLLMConfig], lines 37-48, on the content of the standard
    input. *)
Definition LoadLLMConfig (stdin : string) : result LLMConfig :=
  let reader := stdin in
  let config := mkLLMConfig "" "" "" in
  let '(_, config) := askProviderDetails reader config in
  Ok config.

End Wizard.

End config.

Module main.

(** Lines 42-50 of [main]: the run arguments when arguments are
    present. *)
Definition shortcut_runArgs (args : list string) : list string :=
  let runArgs := args in
  match args with
  | [arg] =>
      if decide (arg = "1" ∨ arg = "console") then ["console"]
      else if decide (arg = "2" ∨ arg = "webui") then ["web"; "api"; "webui"]
      else runArgs
  | _ => runArgs
  end.

(** Lines 66-76 of [main]: the configuration when arguments are present,
    from the environment. *)
Definition env_llmConfig (Getenv : string → string) : config.LLMConfig :=
  let llmConfig := config.mkLLMConfig (Getenv "OLLAMA_HOST") "ollama" (Getenv "OLLAMA_MODEL") in
  let llmConfig :=
    if decide (config.BaseURL llmConfig = "")
    then config.mkLLMConfig "http://localhost:11434/v1" (config.APIKey llmConfig) (config.ModelName llmConfig)
    else llmConfig in
  if decide (config.ModelName llmConfig = "")
  then config.mkLLMConfig (config.BaseURL llmConfig) (config.APIKey llmConfig) "qwen2.5:latest"
  else llmConfig.

End main.

(** ** A reference codec

    A model of [encoding/json] on the values of [any], used to run the
    translators on examples.  [encode] follows [json.Marshal]: object
    members sorted by key, no white space, HTML-safe string escaping. *)

Module refjson.

(** *** Encoding *)

Definition dquote : ascii := "034"%char.
Definition backslash : ascii := "092"%char.

Definition hex_digit (n : N) : ascii :=
  ascii_of_N (if (n <? 10)%N then 48 + n else 87 + n)%N.

(** One byte of a string, as [encoding/json] writes it with HTML
    escaping on (the default of [json.Marshal]). *)
Definition escape_char (c : ascii) : string :=
  let n := N_of_ascii c in
  if decide (c = dquote) then String backslash (String dquote "")
  else if decide (c = backslash) then String backslash (String backslash "")
  else if decide (n = 8%N) then "\b"
  else if decide (n = 12%N) then "\f"
  else if decide (n = 10%N) then "\n"
  else if decide (n = 13%N) then "\r"
  else if decide (n = 9%N) then "\t"
  else if decide ((n < 32)%N ∨ c = "<"%char ∨ c = ">"%char ∨ c = "&"%char)
  then "\u00" +:+ String (hex_digit (n / 16)) (String (hex_digit (n mod 16)) "")
  else String c "".

(** Strings are taken to be valid UTF-8 (the encoder replaces invalid
    bytes by U+FFFD); U+2028 and U+2029 are escaped. *)
Fixpoint escape_string (s : string) : string :=
  match s with
  | "" => ""
  | String "226" (String "128" (String "168" s')) => ("\u" +:+ "2028") +:+ escape_string s'
  | String "226" (String "128" (String "169" s')) => ("\u" +:+ "2029") +:+ escape_string s'
  | String c s' => escape_char c +:+ escape_string s'
  end.

Definition quote (s : string) : string :=
  String dquote (escape_string s +:+ String dquote "").

Definition join (sep : string) (l : list string) : string :=
  match l with
  | [] => ""
  | x :: l => fold_left (λ acc y, acc +:+ sep +:+ y) l x
  end.

(** Object members are written in the order of their keys. *)
Definition key_le (x y : string * string) : Prop := Is_true (String.leb x.1 y.1).
#[local] Instance key_le_dec x y : Decision (key_le x y) :=
  Is_true_dec (String.leb x.1 y.1).

Fixpoint encode (v : any) : string :=
  match v with
  | nil_any => "null"
  | of_bool b => if b then "true" else "false"
  | of_number n => pretty n
  | of_string s => quote s
  | of_slice l => "[" +:+ join "," (map encode l) +:+ "]"
  | of_strings l => "[" +:+ join "," (map quote l) +:+ "]"
  | of_map m =>
      "{" +:+ join "," (map (λ kv, quote kv.1 +:+ ":" +:+ kv.2)
                          (merge_sort key_le (map_to_list (encode <$> m))))
          +:+ "}"
  end.

#[export] Instance marshal : Marshaler :=
  λ v, Some (list_byte_of_string (encode v)).


(** *** Decoding *)

(** The syntax tree of a JSON text.  Numbers are integer literals; a
    fraction or an exponent is outside the fragment decoded here. *)
Inductive json : Type :=
  | JNull
  | JBool (b : bool)
  | JNum (n : Z)
  | JStr (s : string)
  | JArr (l : list json)
  | JObj (kvs : list (string * json)).

Definition is_ws (c : ascii) : bool :=
  bool_decide (c = " "%char ∨ c = "009"%char ∨ c = "010"%char ∨ c = "013"%char).

Fixpoint skip_ws (s : string) : string :=
  match s with
  | String c s' => if is_ws c then skip_ws s' else s
  | "" => ""
  end.

Definition hex_value (c : ascii) : option N :=
  let n := N_of_ascii c in
  if decide (48 ≤ n ≤ 57)%N then Some (n - 48)%N
  else if decide (97 ≤ n ≤ 102)%N then Some (n - 87)%N
  else if decide (65 ≤ n ≤ 70)%N then Some (n - 55)%N
  else None.

(** UTF-8 of a code point of the basic plane; surrogates are outside
    the fragment. *)
Definition utf8 (cp : N) : option string :=
  if decide (cp < 128)%N then Some (String (ascii_of_N cp) "")
  else if decide (cp < 2048)%N then
    Some (String (ascii_of_N (192 + cp / 64))
         (String (ascii_of_N (128 + cp mod 64)) ""))
  else if decide (55296 ≤ cp ≤ 57343)%N then None
  else
    Some (String (ascii_of_N (224 + cp / 4096))
         (String (ascii_of_N (128 + (cp / 64) mod 64))
         (String (ascii_of_N (128 + cp mod 64)) ""))).

(** The characters after an opening quote, up to the closing one. *)
Fixpoint string_body (s : string) : option (string * string) :=
  match s with
  | "" => None
  | String c s' =>
      if decide (c = dquote) then Some ("", s')
      else if decide (c = backslash) then
        match s' with
        | String "u" (String h1 (String h2 (String h3 (String h4 s'')))) =>
            a ← hex_value h1; b ← hex_value h2;
            c ← hex_value h3; d ← hex_value h4;
            u ← utf8 (((a * 16 + b) * 16 + c) * 16 + d)%N;
            '(r, rest) ← string_body s'';
            Some (u +:+ r, rest)
        | String e s'' =>
            u ← (if decide (e = dquote) then Some dquote
                 else if decide (e = backslash) then Some backslash
                 else if decide (e = "/"%char) then Some "/"%char
                 else if decide (e = "b"%char) then Some "008"%char
                 else if decide (e = "f"%char) then Some "012"%char
                 else if decide (e = "n"%char) then Some "010"%char
                 else if decide (e = "r"%char) then Some "013"%char
                 else if decide (e = "t"%char) then Some "009"%char
                 else None);
            '(r, rest) ← string_body s'';
            Some (String u r, rest)
        | "" => None
        end
      else if decide (N_of_ascii c < 32)%N then None
      else '(r, rest) ← string_body s'; Some (String c r, rest)
  end.

Definition digit_value (c : ascii) : option Z :=
  let n := N_of_ascii c in
  if decide (48 ≤ n ≤ 57)%N then Some (Z.of_N (n - 48)) else None.

Fixpoint digits (acc : Z) (s : string) : Z * string :=
  match s with
  | String c s' =>
      match digit_value c with
      | Some d => digits (10 * acc + d)%Z s'
      | None => (acc, s)
      end
  | "" => (acc, s)
  end.

(** An integer literal: an optional sign, then [0] or a run of digits
    that does not start with [0]. *)
Definition number (s : string) : option (Z * string) :=
  let '(neg, s) := match s with
                   | String "-" s' => (true, s')
                   | _ => (false, s)
                   end in
  match s with
  | String c s' =>
      d ← digit_value c;
      let '(n, rest) := if decide (d = 0%Z) then (0%Z, s') else digits d s' in
      match rest with
      | String c' _ =>
          if decide (is_Some (digit_value c') ∨ c' = "."%char ∨ c' = "e"%char ∨ c' = "E"%char)
          then None
          else Some (if neg then (- n)%Z else n, rest)
      | "" => Some (if neg then (- n)%Z else n, rest)
      end
  | "" => None
  end.

Fixpoint value (fuel : nat) (s : string) : option (json * string) :=
  match fuel with
  | 0 => None
  | S fuel =>
      match skip_ws s with
      | String "n" (String "u" (String "l" (String "l" rest))) => Some (JNull, rest)
      | String "t" (String "r" (String "u" (String "e" rest))) => Some (JBool true, rest)
      | String "f" (String "a" (String "l" (String "s" (String "e" rest)))) =>
          Some (JBool false, rest)
      | String "[" rest =>
          match skip_ws rest with
          | String "]" rest => Some (JArr [], rest)
          | _ => '(l, rest) ← elements fuel rest; Some (JArr l, rest)
          end
      | String "{" rest =>
          match skip_ws rest with
          | String "}" rest => Some (JObj [], rest)
          | _ => '(kvs, rest) ← members fuel rest; Some (JObj kvs, rest)
          end
      | String c rest as s =>
          if decide (c = dquote)
          then '(str, rest) ← string_body rest; Some (JStr str, rest)
          else '(n, rest) ← number s; Some (JNum n, rest)
      | "" => None
      end
  end
with elements (fuel : nat) (s : string) : option (list json * string) :=
  match fuel with
  | 0 => None
  | S fuel =>
      '(v, rest) ← value fuel s;
      match skip_ws rest with
      | String "," rest => '(l, rest) ← elements fuel rest; Some (v :: l, rest)
      | String "]" rest => Some ([v], rest)
      | _ => None
      end
  end
with members (fuel : nat) (s : string) : option (list (string * json) * string) :=
  match fuel with
  | 0 => None
  | S fuel =>
      match skip_ws s with
      | String c rest =>
          if decide (c = dquote) then
            '(k, rest) ← string_body rest;
            match skip_ws rest with
            | String ":" rest =>
                '(v, rest) ← value fuel rest;
                match skip_ws rest with
                | String "," rest =>
                    '(kvs, rest) ← members fuel rest; Some ((k, v) :: kvs, rest)
                | String "}" rest => Some ([(k, v)], rest)
                | _ => None
                end
            | _ => None
            end
          else None
      | "" => None
      end
  end.

(** A whole text: one value, then white space only. *)
Definition parse (s : string) : option json :=
  '(v, rest) ← value (2 * String.length s + 2) s;
  if decide (skip_ws rest = "") then Some v else None.

(** What the decoder stores into an [any]; of a repeated key the last
    occurrence stays. *)
Fixpoint any_of_json (j : json) : any :=
  match j with
  | JNull => nil_any
  | JBool b => of_bool b
  | JNum n => of_number n
  | JStr s => of_string s
  | JArr l => of_slice (map any_of_json l)
  | JObj kvs =>
      of_map (list_to_map (reverse (map (λ '(k, v), (k, any_of_json v)) kvs)))
  end.

(** Decoding into a [map[string]any]: [null] leaves the nil map. *)
#[export] Instance unmarshal_map : Unmarshaler (gmap string any) :=
  λ data,
    j ← parse (string_of_list_byte data);
    match any_of_json j with
    | of_map m => Some m
    | nil_any => Some ∅
    | _ => None
    end.

Definition lower (c : ascii) : ascii :=
  let n := N_of_ascii c in
  if decide (65 ≤ n ≤ 90)%N then ascii_of_N (n + 32) else c.

Fixpoint fold_name (s : string) : string :=
  match s with
  | String c s' => String (lower c) (fold_name s')
  | "" => ""
  end.

(** One member of an object decoded into a [ToolDef]: keys match the
    field tags up to the case of ASCII letters, [null] leaves a string
    field as it is, and a value of another type is an error, recorded
    in the boolean. *)
Definition set_field (acc : openaiadapter.ToolDef * bool) (kv : string * json)
    : openaiadapter.ToolDef * bool :=
  let '(td, ok) := acc in
  let '(k, v) := kv in
  let name := openaiadapter.ToolDef_Name td in
  let description := openaiadapter.ToolDef_Description td in
  let parameters := openaiadapter.ToolDef_Parameters td in
  if decide (fold_name k = "name") then
    match v with
    | JStr s => (openaiadapter.mkToolDef s description parameters, ok)
    | JNull => (td, ok)
    | _ => (td, false)
    end
  else if decide (fold_name k = "description") then
    match v with
    | JStr s => (openaiadapter.mkToolDef name s parameters, ok)
    | JNull => (td, ok)
    | _ => (td, false)
    end
  else if decide (fold_name k = "parameters") then
    (openaiadapter.mkToolDef name description (any_of_json v), ok)
  else (td, ok).

#[export] Instance unmarshal_ToolDef : Unmarshaler openaiadapter.ToolDef :=
  λ data,
    j ← parse (string_of_list_byte data);
    match j with
    | JObj kvs =>
        let '(td, ok) := fold_left set_field kvs
                           (openaiadapter.mkToolDef "" "" nil_any, true) in
        if ok then Some td else None
    | JNull => Some (openaiadapter.mkToolDef "" "" nil_any)
    | _ => None
    end.

End refjson.

(** ** Vocabulary of the properties *)

Import openaiadapter.

(** What one fragment adds to the text buffer: its text, then its inline
    bytes read as text. *)
Definition decoded_content (p : genai.Part) : string :=
  genai.Text p +:+
  match genai.InlineData p with
  | Some blob => string_of_list_byte (genai.Blob_Data blob)
  | None => ""
  end.

(** The ordered concatenation of the decoded content of a run of
    fragments. *)
Definition unit_text (ps : list genai.Part) : string :=
  foldr (λ p acc, decoded_content p +:+ acc) "" ps.

Section Vocabulary.
Context {marshaler : Marshaler}.

(** The tool-call records of a run of fragments, in order. *)
Definition unit_calls (ps : list genai.Part) : list openai.ToolCall :=
  omap (λ p, tool_call <$> genai.Part_FunctionCall p) ps.

(** A flush: one message if anything is pending, none otherwise. *)
Definition flush (role text : string) (calls : list openai.ToolCall)
    : list openai.ChatCompletionMessage :=
  if decide (text ≠ "" ∨ calls ≠ [])
  then [openai.mkMessage role text calls ""]
  else [].

(** The messages of one turn, and of a run of fragments under a turn's
    role. *)
Definition turn_messages (c : genai.Content) : list openai.ChatCompletionMessage :=
  content_step [] c.

Definition run_messages (role : string) (ps : list genai.Part)
    : list openai.ChatCompletionMessage :=
  turn_messages (genai.mkContent role ps).

(** The messages of a conversation, without the error result. *)
Definition conversation_messages (contents : list genai.Content)
    : list openai.ChatCompletionMessage :=
  fold_left content_step contents [].

(** A message of role [role] that owns a tool call with identifier [id]. *)
Definition owns_call (role id : string) (m : openai.ChatCompletionMessage) : Prop :=
  openai.Role m = role ∧ ∃ tc, tc ∈ openai.ToolCalls m ∧ openai.ID tc = id.

(** A message is either the tool message of a tool result of the turn,
    or a flush of something pending under the turn's normalized role. *)
Definition from_turn (c : genai.Content) (m : openai.ChatCompletionMessage) : Prop :=
  (∃ p fr, p ∈ genai.Parts c ∧ genai.Part_FunctionResponse p = Some fr
           ∧ m = tool_message fr)
  ∨ (∃ text calls, (text ≠ "" ∨ calls ≠ [])
           ∧ m = openai.mkMessage (normalize_role (genai.Role c)) text calls "").

(** A tool-call identifier is covered by a loop state when an emitted
    message of the turn's role owns it or it is still pending. *)
Definition covered (role id : string) (st : loop_state) : Prop :=
  (∃ m, m ∈ messages st ∧ owns_call role id m)
  ∨ (∃ tc, tc ∈ toolCalls st ∧ openai.ID tc = id).

End Vocabulary.

Definition is_tool_result (p : genai.Part) : Prop :=
  is_Some (genai.Part_FunctionResponse p).

(** The Text fragment of a message's content, if the content is not
    empty. *)
Definition text_fragments (content : string) : list genai.Part :=
  if decide (content = "") then [] else [genai.NewPartFromText content].

Section OutboundVocabulary.
Context {unmarshaler : Unmarshaler (gmap string any)}.

(** The ToolCall fragment of a tool-call entry: none if its arguments do
    not decode, otherwise the entry's name with the decoded, repaired
    arguments. *)
Definition call_fragment (tc : openai.ToolCall) : option genai.Part :=
  args ← json_Unmarshal (list_byte_of_string (openai.Arguments (openai.Function tc)));
  Some (genai.NewPartFromFunctionCall (openai.Name (openai.Function tc))
          (fix_artifact_names args)).

End OutboundVocabulary.

Section CatalogVocabulary.
Context {marshaler : Marshaler} {unmarshaler : Unmarshaler ToolDef}.

(** The name, description and schema of a tool value: from its
    declaration if it exposes one, and only otherwise from the decoding
    of its JSON encoding. *)
Definition extracted (v : tool_value) : option (string * string * any) :=
  match Declaration v with
  | Some decl => Some (genai.Name decl, genai.Description decl, genai.Parameters decl)
  | None =>
      jsonBytes ← json_Marshal (json_value v);
      td ← json_Unmarshal jsonBytes;
      Some (ToolDef_Name td, ToolDef_Description td, ToolDef_Parameters td)
  end.

(** The catalog entry of a tool value: none unless the extracted name is
    not empty. *)
Definition advertised (v : tool_value) : option openai.Tool :=
  '(name, description, parameters) ← extracted v;
  if decide (name = "") then None
  else Some (openai.mkTool "function"
               (openai.mkFunctionDefinition name description parameters)).

End CatalogVocabulary.

(** ** Example inputs *)

(** A string between double quotes, for writing JSON texts. *)
Definition quoted (s : string) : string :=
  String refjson.dquote (s +:+ String refjson.dquote "").

Definition search_args : gmap string any := {["query" := of_string "X"]}.
Definition search_result : gmap string any :=
  {["results" := of_slice [of_string "Y"]]}.

Definition search_args_json : string :=
  "{" +:+ quoted "query" +:+ ":" +:+ quoted "X" +:+ "}".
Definition search_result_json : string :=
  "{" +:+ quoted "results" +:+ ":[" +:+ quoted "Y" +:+ "]}".

(** A model turn that calls the search tool and holds its result. *)
Definition search_turn : genai.Content :=
  genai.mkContent "model"
    [genai.NewPartFromFunctionCall "search" search_args;
     genai.NewPartFromFunctionResponse "search" search_result].

(** A tool result that no tool call precedes. *)
Definition orphan_result : list genai.Content :=
  [genai.mkContent "user" [genai.NewPartFromFunctionResponse "search" search_result]].

(** A user turn of two text fragments around an inline blob. *)
Definition mixed_turn : genai.Content :=
  genai.mkContent ""
    [genai.NewPartFromText "see ";
     genai.NewPartFromBytes [x61; x2e; x74; x78; x74] "text/plain";
     genai.NewPartFromText " now"].

(** A model turn of two flush units around a tool result. *)
Definition two_unit_turn : genai.Content :=
  genai.mkContent "model"
    [genai.NewPartFromText "see ";
     genai.NewPartFromBytes [x61; x2e; x74; x78; x74] "text/plain";
     genai.NewPartFromFunctionResponse "search" search_result;
     genai.NewPartFromText " now"].

(** A response whose second tool call has arguments that are not JSON
    and whose third sends a single artifact name as a string. *)
Definition load_args_json : string :=
  "{" +:+ quoted "artifact_names" +:+ ": " +:+ quoted "a.txt" +:+ ", "
      +:+ quoted "n" +:+ ": 1}".

Definition salvaged_message : openai.ChatCompletionMessage :=
  openai.mkMessage "assistant" "Let me look."
    [openai.mkToolCall "c1" "function" (openai.mkFunctionCall "search" search_args_json);
     openai.mkToolCall "c2" "function" (openai.mkFunctionCall "search" "{query: X");
     openai.mkToolCall "c3" "function"
       (openai.mkFunctionCall "load_artifacts" load_args_json)]
    "".

Definition salvaged_response : openai.ChatCompletionResponse :=
  openai.mkResponse [openai.mkChoice salvaged_message].

Definition load_args : gmap string any :=
  {["artifact_names" := of_string "a.txt"; "n" := of_number 1]}.

(** The search tool, which declares itself; a value without metadata;
    and a value whose declaration has no name although its JSON encoding
    has one. *)
Definition search_tool : tool_value :=
  mkToolValue
    (Some (genai.mkFunctionDeclaration "search" "Search the web for information."
             (of_map {["type" := of_string "object"]})))
    (of_map ∅).

Definition opaque_tool : tool_value :=
  mkToolValue None (of_map {["limit" := of_number 3]}).

Definition unnamed_declarer : tool_value :=
  mkToolValue (Some (genai.mkFunctionDeclaration "" "no name" nil_any))
              (of_map {["name" := of_string "lookup"]}).

Definition sample_tools : gmap string tool_value :=
  {["search" := search_tool; "opaque" := opaque_tool]}.

Definition search_entry : openai.Tool :=
  openai.mkTool "function"
    (openai.mkFunctionDefinition "search" "Search the web for information."
       (of_map {["type" := of_string "object"]})).

(** ** Vocabulary of the further properties *)

(** The tool results of a conversation, in order. *)
Definition tool_results (contents : list genai.Content) : list genai.FunctionResponse :=
  flat_map (λ c, omap genai.Part_FunctionResponse (genai.Parts c)) contents.

(** The fragments of a conversation that are not tool results, in
    order. *)
Definition accumulating_parts (contents : list genai.Content) : list genai.Part :=
  flat_map (λ c, filter (λ p, genai.Part_FunctionResponse p = None) (genai.Parts c))
           contents.

(** The text of the messages that carry no correlation identifier,
    joined in order. *)
Definition wire_text (ms : list openai.ChatCompletionMessage) : string :=
  foldr (λ m acc, openai.Content m +:+ acc) ""
        (filter (λ m, openai.ToolCallID m = "") ms).

(** A tool-result fragment with every other field cleared. *)
Definition mask_result (p : genai.Part) : genai.Part :=
  match genai.Part_FunctionResponse p with
  | Some fr => genai.mkPart "" None None (Some fr)
  | None => p
  end.

Definition mask_results (c : genai.Content) : genai.Content :=
  genai.mkContent (genai.Role c) (map mask_result (genai.Parts c)).

(** A tool result that also carries text, inline data and a tool call. *)
Definition crowded_result : genai.Part :=
  genai.mkPart "dropped"
    (Some (genai.mkBlob [x61] "text/plain"))
    (Some (genai.mkFunctionCall "search" search_args))
    (Some (genai.mkFunctionResponse "search" search_result)).

(** The Text fields of a list of fragments, joined in order. *)
Definition joined_text (ps : list genai.Part) : string :=
  foldr (λ p acc, genai.Text p +:+ acc) "" ps.

(** The names of the tool calls of a list of fragments, in order. *)
Definition call_names (ps : list genai.Part) : list string :=
  omap (λ p, genai.FunctionCall_Name <$> genai.Part_FunctionCall p) ps.

(** The system message of a request, if it has a system instruction. *)
Definition system_prefix (req : LLMRequest) : list openai.ChatCompletionMessage :=
  match Config req with
  | Some config =>
      match genai.SystemInstruction config with
      | Some instruction =>
          [openai.mkMessage "system" (joined_text (genai.Parts instruction)) [] ""]
      | None => []
      end
  | None => []
  end.

Section GenerateVocabulary.
Context {marshaler : Marshaler} {unmarshaler_args : Unmarshaler (gmap string any)}.

(** The request sent for a model, a generic request and a catalog. *)
Definition wire_request (m : ModelStruct) (req : LLMRequest)
    (tools : list openai.Tool) : openai.ChatCompletionRequest :=
  openai.mkRequest (model m)
    (system_prefix req ++ conversation_messages (Contents req)) tools.

(** What is yielded for an answer of the endpoint. *)
Definition outcome (answer : result openai.ChatCompletionResponse)
    : result model.LLMResponse :=
  match answer with
  | Err err => Err ("ollama call failed: " +:+ err)
  | Ok resp =>
      match openai.Choices resp with
      | [] => Err "failed to convert response: no choices returned from ollama"
      | choice :: _ =>
          Ok (model.mkLLMResponse (genai.mkContent "model"
                (text_fragments (openai.Content (openai.Message choice))
                 ++ omap call_fragment (openai.ToolCalls (openai.Message choice)))))
      end
  end.

End GenerateVocabulary.

(** An endpoint that is down for the model "down" and otherwise answers
    with a call of the search tool. *)
Definition canned_client : ChatClient :=
  λ request,
    if decide (openai.Model request = "down") then Err "connection refused"
    else Ok (openai.mkResponse
               [openai.mkChoice
                  (openai.mkMessage "assistant" ""
                     [openai.mkToolCall "id-1" "function"
                        (openai.mkFunctionCall "search" search_args_json)] "")]).

Definition capital_request : LLMRequest :=
  mkLLMRequest
    [genai.mkContent "user" [genai.NewPartFromText "What is the capital of France?"]]
    (Some (genai.mkGenerateContentConfig
             (Some (genai.mkContent "" [genai.NewPartFromText "Be brief."]))))
    ∅.

(** A file name that [Load] refuses: it holds ".." somewhere or starts
    with "/". *)
Definition unsafe_name (name : string) : Prop :=
  (∃ a b, name = a +:+ ".." +:+ b) ∨ (∃ r, name = "/" +:+ r).

(** The response of [Load] for the content of a file. *)
Definition loaded (content : list byte) : services.LoadResponse :=
  services.mkLoadResponse
    (genai.NewPartFromFunctionResponse "load_artifacts"
       {["content" := of_string (string_of_list_byte content)]}).

(** The first [n] lines that a reader hands out. *)
Fixpoint read_lines (n : nat) (reader : string) : list string :=
  match n with
  | 0 => []
  | S n =>
      let '(line, reader) := bufio.ReadString config.newline reader in
      line :: read_lines n reader
  end.

(** The configuration of the local Ollama endpoint. *)
Definition ollama_defaults : config.LLMConfig :=
  config.mkLLMConfig "http://localhost:11434/v1" "ollama" "qwen2.5:latest".

(** ** A reference environment

    White space and letter case on ASCII text, where [strings.TrimSpace]
    and [strings.ToLower] are plain; a small directory; used to run the
    examples. *)

Module refenv.

Definition is_space (c : ascii) : bool :=
  let n := N_of_ascii c in
  bool_decide (9 ≤ n ≤ 13 ∨ n = 32)%N.

Fixpoint trim_left (s : string) : string :=
  match s with
  | String c s' => if is_space c then trim_left s' else s
  | "" => ""
  end.

Definition trim (s : string) : string :=
  String.rev (trim_left (String.rev (trim_left s))).

Fixpoint lower (s : string) : string :=
  match s with
  | String c s' =>
      let n := N_of_ascii c in
      String (if decide (65 ≤ n ≤ 90)%N then ascii_of_N (n + 32) else c) (lower s')
  | "" => ""
  end.

Definition ascii_text : strings.Unicode := strings.mkUnicode trim lower.

Definition directory : services.FileSystem :=
  services.mkFileSystem
    (λ dir,
       if decide (dir = "/srv")
       then Ok [services.mkDirEntry ".env" false; services.mkDirEntry ".git" true;
                services.mkDirEntry "a.txt" false; services.mkDirEntry "docs" true;
                services.mkDirEntry "notes.md" false]
       else Err "no such directory")
    (λ path, if decide (path = "/srv/a.txt") then Ok [x68; x69] else Err "no such file")
    (λ path, if decide (path = "/srv/a.txt") then Ok () else Err "no such file")
    (λ dir name, dir +:+ "/" +:+ name).

End refenv.

(** An environment that sets the host only. *)
Definition gpu_environment (name : string) : string :=
  if decide (name = "OLLAMA_HOST") then " http://gpu:11434/v1" else "".

Section EchoVocabulary.
Context {marshaler : Marshaler} {unmarshaler : Unmarshaler (gmap string any)}.

(** The tool-call record under which a tool call of the endpoint goes
    back to it: none if its arguments do not decode, otherwise the
    record of the call with the repaired arguments. *)
Definition echoed_call (tc : openai.ToolCall) : option openai.ToolCall :=
  args ← json_Unmarshal (list_byte_of_string (openai.Arguments (openai.Function tc)));
  Some (tool_call (genai.mkFunctionCall (openai.Name (openai.Function tc))
                     (fix_artifact_names args))).

End EchoVocabulary.

(** A reply that asks for one artifact by a bare string, then searches. *)
Definition artifact_reply : openai.ChatCompletionResponse :=
  openai.mkResponse
    [openai.mkChoice
       (openai.mkMessage "assistant" ""
          [openai.mkToolCall "c1" "function"
             (openai.mkFunctionCall "load_artifacts" load_args_json);
           openai.mkToolCall "c2" "function"
             (openai.mkFunctionCall "search" search_args_json)]
          "")].

(** ** Facts about the loops of [toOpenAIMessages] *)

Lemma append_nil_r (s : string) : s +:+ "" = s.
Proof.
  induction s as [|c s IH]; [done |].
  change (String c (s +:+ "") = String c s). by rewrite IH.
Qed.

Lemma append_assoc (s1 s2 s3 : string) : (s1 +:+ s2) +:+ s3 = s1 +:+ (s2 +:+ s3).
Proof.
  induction s1 as [|c s1 IH]; [done |].
  change (String c ((s1 +:+ s2) +:+ s3) = String c (s1 +:+ (s2 +:+ s3))).
  by rewrite IH.
Qed.

Section InboundFacts.
Context {marshaler : Marshaler}.

Lemma pending_message_eq role text calls :
  pending_message role text calls = openai.mkMessage role text calls "".
Proof.
  unfold pending_message. case_decide as Hlen; simpl; [done |].
  destruct calls; [done | simpl in Hlen; lia].
Qed.

Lemma pending_test text (calls : list openai.ToolCall) :
  (text ≠ "" ∨ 0 < length calls) ↔ (text ≠ "" ∨ calls ≠ []).
Proof.
  split; (intros [?|Hc]; [by left | right]).
  - intros ->. simpl in Hc. lia.
  - destruct calls; [done | simpl; lia].
Qed.

(** The two flushes of the code, in terms of [flush]. *)
Lemma flush_spec role text calls :
  (if decide (text ≠ "" ∨ 0 < length calls)
   then [pending_message role text calls] else []) = flush role text calls.
Proof.
  unfold flush. rewrite pending_message_eq.
  destruct (decide (text ≠ "" ∨ 0 < length calls)) as [Hp|Hp];
    rewrite pending_test in Hp;
    [by rewrite decide_True | by rewrite decide_False].
Qed.

(** A tool result: flush, then the tool message; both buffers are empty
    afterwards. *)
Lemma part_step_result role st p fr :
  genai.Part_FunctionResponse p = Some fr →
  part_step role st p =
    mkState (messages st ++ flush role (textContent st) (toolCalls st) ++ [tool_message fr])
            "" [].
Proof.
  intros Hfr. unfold part_step. rewrite Hfr, <- flush_spec.
  case_decide as Hp; simpl.
  - by rewrite <- app_assoc.
  - destruct st as [ms t k]; simpl in *.
    assert (t = "") as -> by (destruct (decide (t = "")); [done | tauto]).
    assert (k = []) as -> by (destruct k; [done | simpl in Hp; exfalso; apply Hp; right; lia]).
    done.
Qed.

(** Any other fragment: only the buffers grow. *)
Lemma part_step_accumulate role st p :
  genai.Part_FunctionResponse p = None →
  part_step role st p =
    mkState (messages st) (textContent st +:+ decoded_content p)
            (toolCalls st ++ unit_calls [p]).
Proof.
  intros Hfr. unfold part_step, decoded_content, unit_calls. rewrite Hfr. f_equal.
  - case_decide as Ht.
    + destruct (genai.InlineData p); [by rewrite append_assoc | by rewrite append_nil_r].
    + rewrite Ht. simpl.
      destruct (genai.InlineData p); [done | by rewrite append_nil_r].
  - simpl. destruct (genai.Part_FunctionCall p); simpl; [done | by rewrite app_nil_r].
Qed.

Lemma unit_calls_cons p ps : unit_calls (p :: ps) = unit_calls [p] ++ unit_calls ps.
Proof. unfold unit_calls. simpl. by destruct (genai.Part_FunctionCall p). Qed.

(** A run without tool results only fills the buffers. *)
Lemma loop_accumulate role ps st :
  Forall (λ p, genai.Part_FunctionResponse p = None) ps →
  fold_left (part_step role) ps st =
    mkState (messages st) (textContent st +:+ unit_text ps)
            (toolCalls st ++ unit_calls ps).
Proof.
  intros Hps. revert st.
  induction Hps as [|p ps Hp _ IH]; intros st; cbn [fold_left].
  - destruct st. simpl. by rewrite append_nil_r, app_nil_r.
  - rewrite IH, part_step_accumulate by done. cbn [messages textContent toolCalls].
    by rewrite append_assoc, <- app_assoc, <- unit_calls_cons.
Qed.

(** The messages already emitted are a prefix that the loop never reads. *)
Lemma loop_frame role ps ms0 ms t k :
  fold_left (part_step role) ps (mkState (ms0 ++ ms) t k) =
    let st := fold_left (part_step role) ps (mkState ms t k) in
    mkState (ms0 ++ messages st) (textContent st) (toolCalls st).
Proof.
  revert ms t k. induction ps as [|p ps IH]; intros ms t k; simpl; [done |].
  destruct (genai.Part_FunctionResponse p) as [fr|] eqn:Hfr.
  - rewrite !(part_step_result _ _ _ fr) by done. simpl.
    rewrite <- app_assoc. apply IH.
  - rewrite !part_step_accumulate by done. simpl. apply IH.
Qed.

(** The outer loop body: the inner loop, then the final flush. *)
Lemma content_step_finish ms c :
  content_step ms c =
    let role := normalize_role (genai.Role c) in
    let st := fold_left (part_step role) (genai.Parts c) (mkState ms "" []) in
    messages st ++ flush role (textContent st) (toolCalls st).
Proof.
  unfold content_step. simpl. rewrite <- flush_spec.
  case_decide; [done | by rewrite app_nil_r].
Qed.

Lemma run_messages_finish role ps :
  run_messages role ps =
    let st := fold_left (part_step (normalize_role role)) ps (mkState [] "" []) in
    messages st ++ flush (normalize_role role) (textContent st) (toolCalls st).
Proof. unfold run_messages, turn_messages. by rewrite content_step_finish. Qed.

Lemma content_step_frame ms c : content_step ms c = ms ++ turn_messages c.
Proof.
  unfold turn_messages. rewrite !content_step_finish. simpl.
  pose proof (loop_frame (normalize_role (genai.Role c)) (genai.Parts c) ms [] "" [])
    as Hframe.
  rewrite app_nil_r in Hframe. rewrite Hframe. simpl. by rewrite app_assoc.
Qed.

Lemma conversation_messages_concat contents :
  conversation_messages contents = concat (map turn_messages contents).
Proof.
  unfold conversation_messages.
  enough (∀ ms, fold_left content_step contents ms
                = ms ++ concat (map turn_messages contents)) as Hgen by apply Hgen.
  induction contents as [|c cs IH]; intros ms; simpl.
  - by rewrite app_nil_r.
  - by rewrite IH, content_step_frame, <- app_assoc.
Qed.

Lemma conversation_messages_app cs1 cs2 :
  conversation_messages (cs1 ++ cs2) =
    conversation_messages cs1 ++ conversation_messages cs2.
Proof. by rewrite !conversation_messages_concat, map_app, concat_app. Qed.

Lemma conversation_messages_cons c cs :
  conversation_messages (c :: cs) = turn_messages c ++ conversation_messages cs.
Proof. by rewrite !conversation_messages_concat. Qed.

Lemma toOpenAIMessages_Ok contents :
  toOpenAIMessages contents = Ok (conversation_messages contents).
Proof. done. Qed.

(** A turn without tool results is one flush unit. *)
Lemma turn_messages_unit c :
  Forall (λ p, genai.Part_FunctionResponse p = None) (genai.Parts c) →
  turn_messages c =
    flush (normalize_role (genai.Role c)) (unit_text (genai.Parts c))
          (unit_calls (genai.Parts c)).
Proof.
  intros Hps. unfold turn_messages.
  rewrite content_step_finish. simpl. by rewrite loop_accumulate.
Qed.

(** Splitting a turn at a tool result. *)
Lemma turn_messages_split c ps1 p ps2 fr :
  genai.Parts c = ps1 ++ p :: ps2 →
  genai.Part_FunctionResponse p = Some fr →
  let role := normalize_role (genai.Role c) in
  let st := fold_left (part_step role) ps1 (mkState [] "" []) in
  turn_messages c =
    (messages st ++ flush role (textContent st) (toolCalls st))
    ++ tool_message fr :: run_messages (genai.Role c) ps2.
Proof.
  intros Hparts Hfr. simpl. unfold run_messages, turn_messages.
  rewrite !content_step_finish. simpl. rewrite Hparts, fold_left_app. simpl.
  rewrite (part_step_result _ _ _ fr) by done.
  rewrite (app_assoc (messages _)), loop_frame. simpl.
  set (st2 := fold_left _ ps2 (mkState [] "" [])).
  assert (fold_left (part_step (normalize_role (genai.Role c))) ps2
            (mkState [tool_message fr] "" [])
          = mkState (tool_message fr :: messages st2) (textContent st2) (toolCalls st2))
    as -> by apply (loop_frame _ _ [tool_message fr] []).
  simpl. by rewrite <- !app_assoc.
Qed.

End InboundFacts.

(** ** Inbound translation: the flush point *)

(** C2.  At a ToolResult fragment the loop emits, if text or tool calls
    are pending, one message with the turn's role, the buffered text and
    the pending calls, and empties both buffers; then it emits one
    tool-role message with identifier "call_" + name whose content is
    the encoding of the result payload.  The search scenario yields
    exactly the assistant message and the tool message of the design
    document. *)
Theorem tool_result_is_flush_point :
  (∀ (M : Marshaler) (role : string) (st : loop_state) (p : genai.Part)
     (fr : genai.FunctionResponse),
     genai.Part_FunctionResponse p = Some fr →
     let result_message :=
       openai.mkMessage "tool"
         (string_of_result (json_Marshal (of_map (genai.FunctionResponse_Response fr))))
         [] ("call_" +:+ genai.FunctionResponse_Name fr) in
     part_step role st p =
       if decide (textContent st ≠ "" ∨ toolCalls st ≠ [])
       then mkState (messages st
                       ++ [openai.mkMessage role (textContent st) (toolCalls st) "";
                           result_message])
                    "" []
       else mkState (messages st ++ [result_message]) "" [])
  ∧ toOpenAIMessages (marshaler := refjson.marshal) [search_turn] =
      Ok [openai.mkMessage "assistant" ""
            [openai.mkToolCall "call_search" "function"
               (openai.mkFunctionCall "search" search_args_json)] "";
          openai.mkMessage "tool" search_result_json [] "call_search"].
Proof.
  split; [| by vm_compute].
  intros M role st p fr Hfr. simpl.
  rewrite (part_step_result _ _ _ fr) by done. unfold flush.
  by case_decide.
Qed.

Lemma tool_result_is_flush_point_witness :
  let st := mkState [] "thinking" [] in
  let p := genai.NewPartFromFunctionResponse "search" search_result in
  part_step (marshaler := refjson.marshal) "assistant" st p =
    mkState [openai.mkMessage "assistant" "thinking" [] "";
             openai.mkMessage "tool" search_result_json [] "call_search"] "" [].
Proof.
  exact (proj1 tool_result_is_flush_point refjson.marshal "assistant"
           (mkState [] "thinking" [])
           (genai.NewPartFromFunctionResponse "search" search_result)
           (genai.mkFunctionResponse "search" search_result) eq_refl).
Defined.

(** ** Inbound translation: turns and flush units *)

Section InboundTheorems.
Context {marshaler : Marshaler}.

Lemma unit_calls_nil ps :
  unit_calls ps = [] ↔ Forall (λ p, genai.Part_FunctionCall p = None) ps.
Proof.
  induction ps as [|p ps IH]; [done |].
  rewrite unit_calls_cons, Forall_cons, <- IH. unfold unit_calls at 1. simpl.
  destruct (genai.Part_FunctionCall p); simpl; [| tauto].
  split; [done | by intros [? _]].
Qed.

Lemma length_flush role text calls :
  length (flush role text calls) = if decide (text = "" ∧ calls = []) then 0 else 1.
Proof.
  unfold flush.
  destruct (decide (text ≠ "" ∨ calls ≠ [])) as [Hp|Hp],
           (decide (text = "" ∧ calls = [])) as [Hq|Hq]; simpl; try done.
  - destruct Hq as [-> ->]. by destruct Hp.
  - destruct (decide (text = "")) as [->|]; [| tauto].
    destruct calls; [tauto |]. exfalso. apply Hp. by right.
Qed.

(** C3.  When no turn holds a ToolResult fragment, the output is the
    concatenation, in turn order, of what each turn emits, and a turn
    emits no message if it accumulates neither text nor tool calls and
    exactly one message otherwise; so there are at most as many messages
    as turns. *)
Theorem at_most_one_message_per_turn (contents : list genai.Content) :
  (∀ c p, c ∈ contents → p ∈ genai.Parts c → genai.Part_FunctionResponse p = None) →
  toOpenAIMessages contents = Ok (concat (map turn_messages contents))
  ∧ (∀ c, c ∈ contents →
       length (turn_messages c) =
         if decide (unit_text (genai.Parts c) = ""
                    ∧ Forall (λ p, genai.Part_FunctionCall p = None) (genai.Parts c))
         then 0 else 1)
  ∧ (∀ ms, toOpenAIMessages contents = Ok ms → (length ms ≤ length contents)%nat).
Proof.
  intros Hno.
  assert (∀ c, c ∈ contents →
            length (turn_messages c) =
              if decide (unit_text (genai.Parts c) = ""
                         ∧ Forall (λ p, genai.Part_FunctionCall p = None) (genai.Parts c))
              then 0 else 1) as Hturn.
  { intros c Hc. rewrite turn_messages_unit.
    - rewrite length_flush.
      destruct (decide (unit_text (genai.Parts c) = "" ∧ unit_calls (genai.Parts c) = []))
        as [Hd|Hd]; rewrite unit_calls_nil in Hd;
        [by rewrite decide_True | by rewrite decide_False].
    - apply Forall_forall. intros p Hp. by apply (Hno c). }
  split; [| split; [done |]].
  - by rewrite toOpenAIMessages_Ok, conversation_messages_concat.
  - intros ms Hms. rewrite toOpenAIMessages_Ok in Hms. injection Hms as <-.
    rewrite conversation_messages_concat. clear Hno. induction contents as [|c cs IH]; simpl; [done |].
    rewrite length_app.
    specialize (Hturn c (list_elem_of_here _ _)) as Hc.
    assert (length (concat (map turn_messages cs)) ≤ length cs)%nat as Hcs.
    { apply IH. intros c' Hc'. apply Hturn. by apply list_elem_of_further. }
    case_decide; lia.
Qed.

End InboundTheorems.

Lemma at_most_one_message_per_turn_witness :
  toOpenAIMessages (marshaler := refjson.marshal)
      [mixed_turn; genai.mkContent "user" []] =
    Ok (concat (map (turn_messages (marshaler := refjson.marshal))
                  [mixed_turn; genai.mkContent "user" []]))
  ∧ length (turn_messages (marshaler := refjson.marshal) mixed_turn) = 1
  ∧ length (turn_messages (marshaler := refjson.marshal) (genai.mkContent "user" [])) = 0.
Proof.
  pose proof (at_most_one_message_per_turn (marshaler := refjson.marshal)
                [mixed_turn; genai.mkContent "user" []]) as Hthm.
  destruct Hthm as (Hall & Hturn & _).
  - intros c p Hc Hp.
    apply list_elem_of_In in Hc. apply list_elem_of_In in Hp.
    simpl in Hc. destruct Hc as [<-|[<-|[]]]; simpl in Hp; [| done].
    destruct Hp as [<-|[<-|[<-|[]]]]; reflexivity.
  - split; [exact Hall |]. split.
    + rewrite (Hturn mixed_turn) by (apply list_elem_of_here). reflexivity.
    + rewrite (Hturn (genai.mkContent "user" []))
        by (apply list_elem_of_further, list_elem_of_here). reflexivity.
Defined.

(** The first scenario of the design document: one user turn with one
    Text fragment gives exactly one user message. *)
Example capital_question_scenario :
  toOpenAIMessages (marshaler := refjson.marshal)
      [genai.mkContent "user" [genai.NewPartFromText "What is the capital of France?"]] =
    Ok [openai.mkMessage "user" "What is the capital of France?" [] ""].
Proof. reflexivity. Qed.

Section FlushUnits.
Context {marshaler : Marshaler}.

Lemma flush_nothing role : flush role "" [] = [].
Proof. unfold flush. by rewrite decide_False by (intros [?|?]; done). Qed.

(** After a run that is empty or ends in a tool result both buffers are
    empty, and the run's messages are all emitted. *)
Lemma loop_flushed role pre :
  (pre = [] ∨ ∃ pre' p, pre = pre' ++ [p] ∧ is_tool_result p) →
  fold_left (part_step (normalize_role role)) pre (mkState [] "" []) =
    mkState (run_messages role pre) "" [].
Proof.
  unfold run_messages, turn_messages. rewrite content_step_finish. simpl.
  intros [->|(pre' & p & -> & [fr Hfr])]; simpl.
  - by rewrite flush_nothing.
  - rewrite fold_left_app. simpl. rewrite (part_step_result _ _ _ fr) by done.
    simpl. by rewrite flush_nothing, app_nil_r.
Qed.

Lemma run_messages_nil role : run_messages role [] = [].
Proof.
  unfold run_messages, turn_messages. rewrite content_step_finish. simpl.
  apply flush_nothing.
Qed.

Lemma run_messages_result role p ps fr :
  genai.Part_FunctionResponse p = Some fr →
  run_messages role (p :: ps) = tool_message fr :: run_messages role ps.
Proof.
  intros Hfr. unfold run_messages at 1.
  by rewrite (turn_messages_split _ [] p ps fr) by done.
Qed.

Lemma turn_messages_flush_unit c pre unit post :
  genai.Parts c = pre ++ unit ++ post →
  (pre = [] ∨ ∃ pre' p, pre = pre' ++ [p] ∧ is_tool_result p) →
  (post = [] ∨ ∃ p post', post = p :: post' ∧ is_tool_result p) →
  Forall (λ p, genai.Part_FunctionResponse p = None) unit →
  turn_messages c =
    run_messages (genai.Role c) pre
    ++ flush (normalize_role (genai.Role c)) (unit_text unit) (unit_calls unit)
    ++ run_messages (genai.Role c) post.
Proof.
  intros Hparts Hpre Hpost Hunit.
  assert (fold_left (part_step (normalize_role (genai.Role c))) (pre ++ unit)
            (mkState [] "" [])
          = mkState (run_messages (genai.Role c) pre) (unit_text unit) (unit_calls unit))
    as Hrun.
  { by rewrite fold_left_app, loop_flushed, loop_accumulate. }
  destruct Hpost as [->|(p & post' & -> & [fr Hfr])].
  - rewrite app_nil_r in Hparts. rewrite run_messages_nil, app_nil_r.
    unfold turn_messages. rewrite content_step_finish. simpl.
    by rewrite Hparts, Hrun.
  - rewrite app_assoc in Hparts.
    rewrite (turn_messages_split c _ p post' fr Hparts Hfr). simpl.
    rewrite Hrun. simpl. rewrite (run_messages_result _ _ _ fr) by done.
    by rewrite <- app_assoc.
Qed.

(** C4.  A flush unit is a run of fragments without a ToolResult that
    starts at the start of the turn or right after a ToolResult and ends
    at the end of the turn or right before a ToolResult.  If anything was
    accumulated, the unit emits one message whose text is the ordered
    concatenation of the fragments' decoded content (a Text fragment's
    string, an InlineBinary fragment's bytes read as text); it stands
    between the messages of what precedes and follows the unit. *)
Theorem flush_unit_text_is_concatenation
    (cs1 cs2 : list genai.Content) (c : genai.Content)
    (pre unit post : list genai.Part) :
  genai.Parts c = pre ++ unit ++ post →
  (pre = [] ∨ ∃ pre' p, pre = pre' ++ [p] ∧ is_tool_result p) →
  (post = [] ∨ ∃ p post', post = p :: post' ∧ is_tool_result p) →
  Forall (λ p, ¬ is_tool_result p) unit →
  toOpenAIMessages (cs1 ++ c :: cs2) =
    Ok (conversation_messages cs1
        ++ run_messages (genai.Role c) pre
        ++ (if decide (unit_text unit ≠ "" ∨ unit_calls unit ≠ [])
            then [openai.mkMessage (normalize_role (genai.Role c))
                    (foldr (λ p acc, decoded_content p +:+ acc) "" unit)
                    (unit_calls unit) ""]
            else [])
        ++ run_messages (genai.Role c) post
        ++ conversation_messages cs2).
Proof.
  intros Hparts Hpre Hpost Hunit.
  rewrite toOpenAIMessages_Ok, conversation_messages_app, conversation_messages_cons.
  rewrite (turn_messages_flush_unit c pre unit post); try done.
  - unfold flush, unit_text. by rewrite <- !app_assoc.
  - eapply Forall_impl; [exact Hunit |]. intros p Hp. simpl in Hp.
    unfold is_tool_result in Hp. by destruct (genai.Part_FunctionResponse p); [destruct Hp |].
Qed.

End FlushUnits.

Lemma flush_unit_text_is_concatenation_witness :
  toOpenAIMessages (marshaler := refjson.marshal) ([] ++ two_unit_turn :: []) =
    Ok [openai.mkMessage "assistant" "see a.txt" [] "";
        openai.mkMessage "tool" search_result_json [] "call_search";
        openai.mkMessage "assistant" " now" [] ""].
Proof.
  refine (eq_trans
    (flush_unit_text_is_concatenation (marshaler := refjson.marshal) [] [] two_unit_turn []
       [genai.NewPartFromText "see ";
        genai.NewPartFromBytes [x61; x2e; x74; x78; x74] "text/plain"]
       [genai.NewPartFromFunctionResponse "search" search_result;
        genai.NewPartFromText " now"] eq_refl (or_introl eq_refl) _ _) _).
  - right. eexists _, _. split; [reflexivity |]. by eexists.
  - repeat constructor; by intros [? [=]].
  - by vm_compute.
Defined.

(** ** Inbound translation: what kind of message is emitted *)

Section MessageKinds.
Context {marshaler : Marshaler}.

Lemma elem_of_flush m role text calls :
  m ∈ flush role text calls →
  (text ≠ "" ∨ calls ≠ []) ∧ m = openai.mkMessage role text calls "".
Proof.
  unfold flush. case_decide; [| by intros ?%elem_of_nil].
  by intros ->%list_elem_of_singleton.
Qed.

Lemma loop_classified role ps st m :
  m ∈ messages (fold_left (part_step role) ps st) →
  m ∈ messages st
  ∨ (∃ p fr, p ∈ ps ∧ genai.Part_FunctionResponse p = Some fr ∧ m = tool_message fr)
  ∨ (∃ text calls, (text ≠ "" ∨ calls ≠ []) ∧ m = openai.mkMessage role text calls "").
Proof.
  revert st. induction ps as [|p ps IH]; intros st; simpl; [by left |].
  intros [Hm|[(q & fr & Hq & Hfr & ->)|Hm]]%IH.
  - destruct (genai.Part_FunctionResponse p) as [fr|] eqn:Hfr.
    + rewrite (part_step_result _ _ _ fr) in Hm by done. simpl in Hm.
      rewrite !elem_of_app, list_elem_of_singleton in Hm.
      destruct Hm as [?|[[? ->]%elem_of_flush| ->]];
        [by left | right; right; by eauto |].
      right; left. exists p, fr. split; [apply list_elem_of_here | done].
    + rewrite part_step_accumulate in Hm by done. by left.
  - right; left. exists q, fr. split; [by apply list_elem_of_further | done].
  - by right; right.
Qed.

Lemma turn_classified c m : m ∈ turn_messages c → from_turn c m.
Proof.
  unfold turn_messages. rewrite content_step_finish. simpl.
  intros [Hm|[? ->]%elem_of_flush]%elem_of_app; [| right; by eauto].
  apply loop_classified in Hm as [Hm|[?|?]]; [| by left | by right].
  by apply elem_of_nil in Hm.
Qed.

Lemma conversation_classified contents m :
  m ∈ conversation_messages contents → ∃ c, c ∈ contents ∧ from_turn c m.
Proof.
  induction contents as [|c cs IH].
  - by intros ?%elem_of_nil.
  - rewrite conversation_messages_cons.
    intros [Hm|(c' & Hc' & Hm)%IH]%elem_of_app.
    + exists c. split; [apply list_elem_of_here | by apply turn_classified].
    + exists c'. split; [by apply list_elem_of_further | done].
Qed.

(** C9.  The output is the concatenation of the messages of the turns.
    A message of a turn is either the tool message of one of the turn's
    ToolResult fragments, or a turn-derived message, and the role of a
    turn-derived message is the normalized role of the turn: assistant
    for "model", user for the empty role, the turn's own role
    otherwise. *)
Theorem turn_message_role_is_normalized
    (contents : list genai.Content) (c : genai.Content)
    (m : openai.ChatCompletionMessage) :
  toOpenAIMessages contents = Ok (concat (map turn_messages contents))
  ∧ (m ∈ turn_messages c →
     (∃ p fr, p ∈ genai.Parts c ∧ genai.Part_FunctionResponse p = Some fr
              ∧ m = tool_message fr)
     ∨ (openai.ToolCallID m = ""
        ∧ openai.Role m =
            if decide (genai.Role c = "model") then "assistant"
            else if decide (genai.Role c = "") then "user"
            else genai.Role c)).
Proof.
  split; [by rewrite toOpenAIMessages_Ok, conversation_messages_concat |].
  intros [?|(text & calls & _ & ->)]%turn_classified; [by left | by right].
Qed.

(** C10.  Every message of the output that is not the tool message of a
    ToolResult fragment has non-empty text or at least one tool call; in
    particular every message whose role is not "tool" has. *)
Theorem turn_message_is_not_empty
    (contents : list genai.Content) (ms : list openai.ChatCompletionMessage)
    (m : openai.ChatCompletionMessage) :
  toOpenAIMessages contents = Ok ms →
  m ∈ ms →
  ((∃ c p fr, c ∈ contents ∧ p ∈ genai.Parts c
              ∧ genai.Part_FunctionResponse p = Some fr ∧ m = tool_message fr)
   ∨ (openai.Content m ≠ "" ∨ openai.ToolCalls m ≠ []))
  ∧ (openai.Role m ≠ "tool" → openai.Content m ≠ "" ∨ openai.ToolCalls m ≠ []).
Proof.
  rewrite toOpenAIMessages_Ok. intros [= <-] Hm.
  apply conversation_classified in Hm as (c & Hc & Hm).
  destruct Hm as [(p & fr & Hp & Hfr & ->)|(text & calls & Hne & ->)]; simpl.
  - split; [left; by exists c, p, fr | intros Hrole; by destruct Hrole].
  - split; [by right | done].
Qed.

End MessageKinds.

Lemma turn_message_role_is_normalized_witness :
  (∃ p fr, p ∈ genai.Parts two_unit_turn ∧ genai.Part_FunctionResponse p = Some fr
           ∧ openai.mkMessage "assistant" " now" [] ""
             = tool_message (marshaler := refjson.marshal) fr)
  ∨ (openai.ToolCallID (openai.mkMessage "assistant" " now" [] "") = ""
     ∧ openai.Role (openai.mkMessage "assistant" " now" [] "") =
         if decide (genai.Role two_unit_turn = "model") then "assistant"
         else if decide (genai.Role two_unit_turn = "") then "user"
         else genai.Role two_unit_turn).
Proof.
  apply (proj2 (turn_message_role_is_normalized (marshaler := refjson.marshal)
                  [two_unit_turn] two_unit_turn
                  (openai.mkMessage "assistant" " now" [] ""))).
  apply list_elem_of_In. vm_compute. tauto.
Defined.

Lemma turn_message_is_not_empty_witness :
  openai.Content (openai.mkMessage "assistant" " now" [] "") ≠ ""
  ∨ openai.ToolCalls (openai.mkMessage "assistant" " now" [] "") ≠ [].
Proof.
  apply (turn_message_is_not_empty (marshaler := refjson.marshal) [two_unit_turn]
           [openai.mkMessage "assistant" "see a.txt" [] "";
            openai.mkMessage "tool" search_result_json [] "call_search";
            openai.mkMessage "assistant" " now" [] ""]).
  - by vm_compute.
  - apply list_elem_of_In. simpl. tauto.
  - simpl. discriminate.
Defined.

(** ** Inbound translation: tool results and the calls they answer *)

Section Correlation.
Context {marshaler : Marshaler}.

Lemma flush_pending_call role id text calls tc :
  tc ∈ calls → openai.ID tc = id →
  ∃ m, m ∈ flush role text calls ∧ owns_call role id m.
Proof.
  intros Htc Hid. exists (openai.mkMessage role text calls "").
  unfold flush. rewrite decide_True.
  - split; [apply list_elem_of_here |]. split; [done | by exists tc].
  - right. intros ->. by apply elem_of_nil in Htc.
Qed.

Lemma part_step_covered role id st p :
  covered role id st → covered role id (part_step role st p).
Proof.
  intros Hcov. destruct (genai.Part_FunctionResponse p) as [fr|] eqn:Hfr.
  - rewrite (part_step_result _ _ _ fr) by done. left. simpl.
    destruct Hcov as [(m & Hm & Hown)|(tc & Htc & Hid)].
    + exists m. split; [| done]. apply elem_of_app. by left.
    + destruct (flush_pending_call role id (textContent st) _ tc Htc Hid)
        as (m & Hm & Hown).
      exists m. split; [| done]. rewrite !elem_of_app. by right; left.
  - rewrite part_step_accumulate by done.
    destruct Hcov as [?|(tc & Htc & Hid)]; [by left |].
    right. exists tc. split; [| done]. apply elem_of_app. by left.
Qed.

Lemma part_step_call role st p fc :
  genai.Part_FunctionResponse p = None →
  genai.Part_FunctionCall p = Some fc →
  covered role ("call_" +:+ genai.FunctionCall_Name fc) (part_step role st p).
Proof.
  intros Hfr Hfc. rewrite part_step_accumulate by done.
  right. exists (tool_call fc). split; [| done]. simpl.
  apply elem_of_app. right. unfold unit_calls. simpl. rewrite Hfc. simpl.
  apply list_elem_of_here.
Qed.

Lemma loop_covered role id ps st :
  covered role id st → covered role id (fold_left (part_step role) ps st).
Proof.
  revert st. induction ps as [|p ps IH]; intros st Hcov; simpl; [done |].
  by apply IH, part_step_covered.
Qed.

Lemma loop_call role ps st q fc :
  q ∈ ps →
  genai.Part_FunctionResponse q = None →
  genai.Part_FunctionCall q = Some fc →
  covered role ("call_" +:+ genai.FunctionCall_Name fc)
          (fold_left (part_step role) ps st).
Proof.
  intros Hq Hfr Hfc. revert st.
  induction ps as [|p ps IH]; intros st; [by apply elem_of_nil in Hq |].
  simpl. apply elem_of_cons in Hq as [<-|Hq].
  - by apply loop_covered, part_step_call.
  - by apply IH.
Qed.

(** A tool call of a run is owned by one of the run's messages. *)
Lemma run_messages_call role ps q fc :
  q ∈ ps →
  genai.Part_FunctionResponse q = None →
  genai.Part_FunctionCall q = Some fc →
  ∃ m, m ∈ run_messages role ps
       ∧ owns_call (normalize_role role) ("call_" +:+ genai.FunctionCall_Name fc) m.
Proof.
  intros Hq Hfr Hfc. unfold run_messages, turn_messages.
  rewrite content_step_finish. simpl.
  destruct (loop_call (normalize_role role) ps (mkState [] "" []) q fc Hq Hfr Hfc)
    as [(m & Hm & Hown)|(tc & Htc & Hid)].
  - exists m. split; [| done]. apply elem_of_app. by left.
  - destruct (flush_pending_call (normalize_role role) _
                (textContent (fold_left (part_step (normalize_role role)) ps
                                (mkState [] "" []))) _ tc Htc Hid)
      as (m & Hm & Hown).
    exists m. split; [| done]. apply elem_of_app. by right.
Qed.

Lemma conversation_messages_call contents c q fc :
  c ∈ contents → q ∈ genai.Parts c →
  genai.Part_FunctionResponse q = None →
  genai.Part_FunctionCall q = Some fc →
  ∃ m, m ∈ conversation_messages contents
       ∧ owns_call (normalize_role (genai.Role c))
                   ("call_" +:+ genai.FunctionCall_Name fc) m.
Proof.
  intros Hc Hq Hfr Hfc.
  induction contents as [|c' cs IH]; [by apply elem_of_nil in Hc |].
  rewrite conversation_messages_cons.
  apply elem_of_cons in Hc as [<-|Hc].
  - destruct (run_messages_call (genai.Role c) (genai.Parts c) q fc Hq Hfr Hfc)
      as (m & Hm & Hown).
    exists m. split; [| done]. apply elem_of_app. left. by destruct c.
  - destruct (IH Hc) as (m & Hm & Hown).
    exists m. split; [| done]. apply elem_of_app. by right.
Qed.

(** C1, as the code has it.  The tool message of a ToolResult fragment
    with name n stands between the messages of what precedes and what
    follows the fragment, has role "tool" and carries the identifier
    "call_" + n.  Whenever a ToolCall fragment with name n precedes it,
    in an earlier turn or earlier in its own turn, a message before the
    tool message owns a tool call with that identifier and has the
    normalized role of the calling turn (assistant for a model turn).
    Nothing is promised for a ToolResult that no ToolCall precedes. *)
Theorem tool_result_is_correlated
    (cs1 cs2 : list genai.Content) (c : genai.Content)
    (ps1 ps2 : list genai.Part) (p : genai.Part) (fr : genai.FunctionResponse) :
  genai.Parts c = ps1 ++ p :: ps2 →
  genai.Part_FunctionResponse p = Some fr →
  let before := conversation_messages cs1 ++ run_messages (genai.Role c) ps1 in
  let after := run_messages (genai.Role c) ps2 ++ conversation_messages cs2 in
  toOpenAIMessages (cs1 ++ c :: cs2) = Ok (before ++ tool_message fr :: after)
  ∧ openai.Role (tool_message fr) = "tool"
  ∧ openai.ToolCallID (tool_message fr) = "call_" +:+ genai.FunctionResponse_Name fr
  ∧ ∀ c' q fc,
      (c' ∈ cs1 ∧ q ∈ genai.Parts c') ∨ (c' = c ∧ q ∈ ps1) →
      genai.Part_FunctionResponse q = None →
      genai.Part_FunctionCall q = Some fc →
      genai.FunctionCall_Name fc = genai.FunctionResponse_Name fr →
      ∃ m tc, m ∈ before
              ∧ openai.Role m = normalize_role (genai.Role c')
              ∧ tc ∈ openai.ToolCalls m
              ∧ openai.ID tc = "call_" +:+ genai.FunctionResponse_Name fr.
Proof.
  intros Hparts Hfr before after. repeat split.
  - rewrite toOpenAIMessages_Ok, conversation_messages_app, conversation_messages_cons.
    rewrite (turn_messages_split c ps1 p ps2 fr Hparts Hfr). cbv zeta.
    unfold before, after. rewrite (run_messages_finish _ ps1). cbv zeta.
    by rewrite <- !app_assoc.
  - intros c' q fc Hwhere Hq Hfc <-.
    assert (∃ m, m ∈ before
                 ∧ owns_call (normalize_role (genai.Role c'))
                             ("call_" +:+ genai.FunctionCall_Name fc) m)
      as (m & Hm & Hrole & tc & Htc & Hid).
    { unfold before. destruct Hwhere as [[Hc' Hin]|[-> Hin]].
      - destruct (conversation_messages_call cs1 c' q fc Hc' Hin Hq Hfc)
          as (m & Hm & Hown).
        exists m. split; [| done]. apply elem_of_app. by left.
      - destruct (run_messages_call (genai.Role c) ps1 q fc Hin Hq Hfc)
          as (m & Hm & Hown).
        exists m. split; [| done]. apply elem_of_app. by right. }
    by exists m, tc.
Qed.

End Correlation.

Lemma tool_result_is_correlated_witness :
  toOpenAIMessages (marshaler := refjson.marshal) ([] ++ search_turn :: []) =
    Ok ([openai.mkMessage "assistant" ""
           [openai.mkToolCall "call_search" "function"
              (openai.mkFunctionCall "search" search_args_json)] ""]
        ++ openai.mkMessage "tool" search_result_json [] "call_search" :: [])
  ∧ ∃ m tc,
      m ∈ [openai.mkMessage "assistant" ""
             [openai.mkToolCall "call_search" "function"
                (openai.mkFunctionCall "search" search_args_json)] ""]
      ∧ openai.Role m = "assistant"
      ∧ tc ∈ openai.ToolCalls m
      ∧ openai.ID tc = "call_search".
Proof.
  destruct (tool_result_is_correlated (marshaler := refjson.marshal) [] [] search_turn
              [genai.NewPartFromFunctionCall "search" search_args] []
              (genai.NewPartFromFunctionResponse "search" search_result)
              (genai.mkFunctionResponse "search" search_result) eq_refl eq_refl)
    as (Hout & _ & _ & Hcall).
  split; [exact Hout |].
  apply (Hcall search_turn (genai.NewPartFromFunctionCall "search" search_args)
           (genai.mkFunctionCall "search" search_args)).
  - right. split; [reflexivity | apply list_elem_of_here].
  - reflexivity.
  - reflexivity.
  - reflexivity.
Defined.

(** C1 as stated fails: the tool message of a ToolResult that no
    ToolCall precedes has no preceding assistant message at all. *)
Lemma orphan_tool_result_has_no_call :
  ∃ before m after,
    toOpenAIMessages (marshaler := refjson.marshal) orphan_result
      = Ok (before ++ m :: after)
    ∧ openai.Role m = "tool"
    ∧ openai.ToolCallID m = "call_search"
    ∧ ¬ ∃ a tc, a ∈ before
                ∧ openai.Role a = "assistant"
                ∧ tc ∈ openai.ToolCalls a
                ∧ openai.ID tc = openai.ToolCallID m.
Proof.
  exists [], (openai.mkMessage "tool" search_result_json [] "call_search"), [].
  split; [by vm_compute |]. split; [done |]. split; [done |].
  intros (a & tc & Ha & _). by apply elem_of_nil in Ha.
Qed.

(** ** Outbound translation *)

Section OutboundTheorems.
Context {unmarshaler : Unmarshaler (gmap string any)}.

Lemma tool_call_step_fragment parts tc :
  tool_call_step parts tc = parts ++ option_list (call_fragment tc).
Proof.
  unfold tool_call_step, call_fragment.
  destruct (json_Unmarshal _); simpl; [done | by rewrite app_nil_r].
Qed.

Lemma tool_calls_loop tcs parts :
  fold_left tool_call_step tcs parts = parts ++ omap call_fragment tcs.
Proof.
  revert parts. induction tcs as [|tc tcs IH]; intros parts; simpl.
  - by rewrite app_nil_r.
  - rewrite IH, tool_call_step_fragment, <- app_assoc.
    by destruct (call_fragment tc).
Qed.

Lemma toADKResponse_first_choice choice rest :
  toADKResponse (openai.mkResponse (choice :: rest)) =
    Ok (model.mkLLMResponse (genai.mkContent "model"
          (text_fragments (openai.Content (openai.Message choice))
           ++ omap call_fragment (openai.ToolCalls (openai.Message choice))))).
Proof.
  unfold toADKResponse, text_fragments. simpl. rewrite tool_calls_loop.
  by destruct (decide (openai.Content (openai.Message choice) = "")) as [->|];
    [| rewrite decide_True by done].
Qed.

(** C5.  A response without choices is the error "no choices returned",
    and no response value (hence no fragment) comes with it.  A response
    with choices succeeds with the translation of its first choice: a
    model turn made of the Text fragment of the first choice's content
    (if not empty) followed by the ToolCall fragments of the first
    choice's tool calls; the other choices are not read, so the result
    is that of the response made of the first choice alone. *)
Theorem empty_response_is_an_error :
  toADKResponse (openai.mkResponse []) = Err "no choices returned from ollama"
  ∧ ∀ choice rest,
      toADKResponse (openai.mkResponse (choice :: rest))
        = Ok (model.mkLLMResponse (genai.mkContent "model"
                (text_fragments (openai.Content (openai.Message choice))
                 ++ omap call_fragment (openai.ToolCalls (openai.Message choice)))))
      ∧ toADKResponse (openai.mkResponse (choice :: rest))
          = toADKResponse (openai.mkResponse [choice])
      ∧ ∃ parts,
          toADKResponse (openai.mkResponse (choice :: rest))
            = Ok (model.mkLLMResponse (genai.mkContent "model" parts)).
Proof.
  split; [done |]. intros choice rest.
  rewrite !toADKResponse_first_choice. split; [done |]. split; [done | by eexists].
Qed.

(** C6.  The fragments of a response are the Text fragment of the first
    choice's content, if not empty, followed by one ToolCall fragment
    for each tool-call entry whose arguments decode, in the order of the
    entries.  An entry whose arguments do not decode contributes nothing
    and the translation still succeeds with the fragments of all other
    entries. *)
Theorem undecodable_tool_call_is_skipped
    (choice : openai.ChatCompletionChoice) (rest : list openai.ChatCompletionChoice) :
  let msg := openai.Message choice in
  toADKResponse (openai.mkResponse (choice :: rest)) =
    Ok (model.mkLLMResponse (genai.mkContent "model"
          (text_fragments (openai.Content msg)
           ++ omap call_fragment (openai.ToolCalls msg))))
  ∧ ∀ l1 tc l2,
      openai.ToolCalls msg = l1 ++ tc :: l2 →
      json_Unmarshal (list_byte_of_string (openai.Arguments (openai.Function tc)))
        = None →
      toADKResponse (openai.mkResponse (choice :: rest)) =
        Ok (model.mkLLMResponse (genai.mkContent "model"
              (text_fragments (openai.Content msg)
               ++ omap call_fragment l1 ++ omap call_fragment l2))).
Proof.
  intros msg. split; [apply toADKResponse_first_choice |].
  intros l1 tc l2 Hcalls Hbad. rewrite toADKResponse_first_choice.
  fold msg. rewrite Hcalls, omap_app. simpl.
  unfold call_fragment at 2. by rewrite Hbad.
Qed.

(** C7.  When the arguments of a tool-call entry of the first choice
    decode to [args], the response of outbound translation holds, at the
    entry's place among the fragments, a ToolCall fragment with the
    entry's name that carries [args] with the value under
    "artifact_names" replaced by the one-element list [[s]] if that
    value is a string [s]; otherwise it carries [args] unchanged.  No
    other key changes. *)
Theorem artifact_names_string_becomes_list
    (choice : openai.ChatCompletionChoice) (rest : list openai.ChatCompletionChoice)
    (l1 l2 : list openai.ToolCall) (tc : openai.ToolCall) (args : gmap string any) :
  openai.ToolCalls (openai.Message choice) = l1 ++ tc :: l2 →
  json_Unmarshal (list_byte_of_string (openai.Arguments (openai.Function tc)))
    = Some args →
  ∃ args',
    toADKResponse (openai.mkResponse (choice :: rest)) =
      Ok (model.mkLLMResponse (genai.mkContent "model"
            (text_fragments (openai.Content (openai.Message choice))
             ++ omap call_fragment l1
             ++ genai.NewPartFromFunctionCall (openai.Name (openai.Function tc)) args'
                :: omap call_fragment l2)))
    ∧ (∀ parts,
         tool_call_step parts tc =
           parts ++ [genai.NewPartFromFunctionCall
                       (openai.Name (openai.Function tc)) args'])
    ∧ (∀ s, args !! "artifact_names" = Some (of_string s) →
            args' = <["artifact_names" := of_strings [s]]> args)
    ∧ ((∀ s, args !! "artifact_names" ≠ Some (of_string s)) → args' = args)
    ∧ (∀ k, k ≠ "artifact_names" → args' !! k = args !! k).
Proof.
  intros Hcalls Hargs. exists (fix_artifact_names args).
  split; [| split; [| split; [| split]]].
  - rewrite toADKResponse_first_choice, Hcalls, omap_app. csimpl.
    assert (call_fragment tc
            = Some (genai.NewPartFromFunctionCall (openai.Name (openai.Function tc))
                      (fix_artifact_names args))) as ->
      by (unfold call_fragment; by rewrite Hargs).
    done.
  - intros parts. unfold tool_call_step. by rewrite Hargs.
  - intros s Hs. unfold fix_artifact_names. by rewrite Hs.
  - intros Hs. unfold fix_artifact_names.
    destruct (args !! "artifact_names") as [val|] eqn:Hval; [| done].
    destruct val; simpl; try done. by destruct (Hs s).
  - intros k Hk. unfold fix_artifact_names.
    destruct (args !! "artifact_names") as [val|]; [| done].
    destruct (as_string val); [| done]. by rewrite lookup_insert_ne.
Qed.

End OutboundTheorems.

Lemma undecodable_tool_call_is_skipped_witness :
  toADKResponse (unmarshaler := refjson.unmarshal_map) salvaged_response =
    Ok (model.mkLLMResponse (genai.mkContent "model"
          [genai.NewPartFromText "Let me look.";
           genai.NewPartFromFunctionCall "search" search_args;
           genai.NewPartFromFunctionCall "load_artifacts"
             (<["artifact_names" := of_strings ["a.txt"]]> load_args)])).
Proof.
  refine (eq_trans
    (proj2 (undecodable_tool_call_is_skipped (unmarshaler := refjson.unmarshal_map)
              (openai.mkChoice salvaged_message) [])
       [openai.mkToolCall "c1" "function"
          (openai.mkFunctionCall "search" search_args_json)]
       (openai.mkToolCall "c2" "function" (openai.mkFunctionCall "search" "{query: X"))
       [openai.mkToolCall "c3" "function"
          (openai.mkFunctionCall "load_artifacts" load_args_json)]
       eq_refl _) _).
  - by vm_compute.
  - by vm_compute.
Defined.

Lemma artifact_names_string_becomes_list_witness :
  toADKResponse (unmarshaler := refjson.unmarshal_map) artifact_reply =
    Ok (model.mkLLMResponse (genai.mkContent "model"
          [genai.NewPartFromFunctionCall "load_artifacts"
             (<["artifact_names" := of_strings ["a.txt"]]> load_args);
           genai.NewPartFromFunctionCall "search" search_args])).
Proof.
  destruct (artifact_names_string_becomes_list (unmarshaler := refjson.unmarshal_map)
              (openai.mkChoice
                 (openai.mkMessage "assistant" ""
                    [openai.mkToolCall "c1" "function"
                       (openai.mkFunctionCall "load_artifacts" load_args_json);
                     openai.mkToolCall "c2" "function"
                       (openai.mkFunctionCall "search" search_args_json)] ""))
              [] []
              [openai.mkToolCall "c2" "function"
                 (openai.mkFunctionCall "search" search_args_json)]
              (openai.mkToolCall "c1" "function"
                 (openai.mkFunctionCall "load_artifacts" load_args_json))
              load_args) as (args' & Hout & _ & Hfix & _).
  - reflexivity.
  - by vm_compute.
  - refine (eq_trans Hout _). rewrite (Hfix "a.txt") by reflexivity.
    by vm_compute.
Defined.

(** ** Tool catalog translation *)

Section CatalogTheorems.
Context {marshaler : Marshaler} {unmarshaler : Unmarshaler ToolDef}.

Lemma tool_step_advertised tools v :
  tool_step tools v = tools ++ option_list (advertised v).
Proof.
  unfold tool_step, advertised, extracted, tool_metadata.
  destruct (Declaration v) as [decl|]; simpl.
  - destruct (decide (genai.Name decl = "")) as [Hn|Hn].
    + by rewrite decide_False, app_nil_r by (by intros ?).
    + by rewrite decide_True.
  - destruct (json_Marshal (json_value v)) as [jsonBytes|]; simpl;
      [| by rewrite app_nil_r].
    destruct (json_Unmarshal jsonBytes) as [td|]; simpl; [| by rewrite app_nil_r].
    destruct (decide (ToolDef_Name td = "")) as [Hn|Hn].
    + rewrite (decide_False (P := ToolDef_Name td ≠ "")) by (by intros ?).
      simpl. by rewrite app_nil_r.
    + by rewrite !decide_True.
Qed.

Lemma tools_loop vs tools :
  fold_left tool_step vs tools = tools ++ omap advertised vs.
Proof.
  revert tools. induction vs as [|v vs IH]; intros tools; simpl.
  - by rewrite app_nil_r.
  - rewrite IH, tool_step_advertised, <- app_assoc. by destruct (advertised v).
Qed.

Lemma is_Some_advertised v :
  is_Some (advertised v) ↔
    (∃ decl, Declaration v = Some decl ∧ genai.Name decl ≠ "")
    ∨ (Declaration v = None
       ∧ ∃ jsonBytes td, json_Marshal (json_value v) = Some jsonBytes
                         ∧ json_Unmarshal jsonBytes = Some td
                         ∧ ToolDef_Name td ≠ "").
Proof.
  unfold advertised, extracted.
  destruct (Declaration v) as [decl|]; simpl.
  - case_decide as Hn; split.
    + by intros [? [=]].
    + intros [(? & [= <-] & ?)|[[=] _]]. done.
    + intros _. left. by exists decl.
    + by eexists.
  - destruct (json_Marshal (json_value v)) as [jsonBytes|]; simpl.
    + destruct (json_Unmarshal jsonBytes) as [td|] eqn:Htd; simpl.
      * case_decide as Hn; split.
        -- by intros [? [=]].
        -- intros [(? & [=] & _)|(_ & ? & ? & [= <-] & Htd' & ?)].
           rewrite Htd in Htd'. by injection Htd' as <-.
        -- intros _. right. split; [done |]. by exists jsonBytes, td.
        -- by eexists.
      * split; [by intros [? [=]] |].
        intros [(? & [=] & _)|(_ & ? & ? & [= <-] & Htd' & _)].
        by rewrite Htd in Htd'.
    + split; [by intros [? [=]] |].
      by intros [(? & [=] & _)|(_ & ? & ? & [=] & _)].
Qed.

(** C8, as the code has it.  Whatever the iteration order of the map,
    the loop ends with a list (no error path exists), and the list holds
    exactly one entry for each tool value with an extractable non-empty
    name: the name of its declaration if the value exposes the
    declaration accessor, and only otherwise the name found by encoding
    the value to JSON and decoding it into the name/description/parameters
    shape.  A value that exposes the accessor is never given to the
    structural extraction. *)
Theorem tool_catalog_holds_named_tools (adkTools : gmap string tool_value) :
  (∃ tools, toOpenAITools adkTools tools)
  ∧ (∀ tools, toOpenAITools adkTools tools →
       tools ≡ₚ omap advertised (map_to_list adkTools).*2
       ∧ ∀ t, t ∈ tools ↔ ∃ k v, adkTools !! k = Some v ∧ advertised v = Some t)
  ∧ (∀ v, is_Some (advertised v) ↔
       (∃ decl, Declaration v = Some decl ∧ genai.Name decl ≠ "")
       ∨ (Declaration v = None
          ∧ ∃ jsonBytes td, json_Marshal (json_value v) = Some jsonBytes
                            ∧ json_Unmarshal jsonBytes = Some td
                            ∧ ToolDef_Name td ≠ "")).
Proof.
  split; [| split; [| apply is_Some_advertised]].
  - eexists. by apply (range_in_order adkTools (map_to_list adkTools)).
  - intros tools Hrun. destruct Hrun as [kvs Hperm].
    rewrite tools_loop. simpl.
    assert (omap advertised kvs.*2 ≡ₚ omap advertised (map_to_list adkTools).*2)
      as Hsame by (by rewrite Hperm).
    split; [done |]. intros t. rewrite Hsame, list_elem_of_omap. split.
    + intros (v & ((k & v') & -> & Hkv)%list_elem_of_fmap & Ht).
      exists k, v'. split; [by apply elem_of_map_to_list | done].
    + intros (k & v & Hkv & Ht). exists v. split; [| done].
      apply list_elem_of_fmap. exists (k, v). split; [done |].
      by apply elem_of_map_to_list.
Qed.

End CatalogTheorems.

Lemma tool_catalog_holds_named_tools_witness :
  toOpenAITools (marshaler := refjson.marshal)
                (unmarshaler := refjson.unmarshal_ToolDef) sample_tools [search_entry]
  ∧ [search_entry] ≡ₚ
      omap (advertised (marshaler := refjson.marshal)
                       (unmarshaler := refjson.unmarshal_ToolDef))
           (map_to_list sample_tools).*2.
Proof.
  assert (toOpenAITools (marshaler := refjson.marshal)
            (unmarshaler := refjson.unmarshal_ToolDef) sample_tools [search_entry])
    as Hrun.
  { replace [search_entry]
      with (fold_left (tool_step (marshaler := refjson.marshal)
                                 (unmarshaler := refjson.unmarshal_ToolDef))
                      (map_to_list sample_tools).*2 []) by (by vm_compute).
    by constructor. }
  split; [exact Hrun |].
  exact (proj1 (proj1 (proj2 (tool_catalog_holds_named_tools
                                (marshaler := refjson.marshal)
                                (unmarshaler := refjson.unmarshal_ToolDef)
                                sample_tools)) [search_entry] Hrun)).
Defined.

(** C8 as stated fails: a value whose declaration accessor yields a
    declaration, and whose JSON encoding decodes to a non-empty name, is
    left out of the catalog when the declaration's name is empty. *)
Lemma unnamed_declarer_is_left_out :
  is_Some (Declaration unnamed_declarer)
  ∧ (∃ jsonBytes td,
       json_Marshal (Marshaler := refjson.marshal) (json_value unnamed_declarer)
         = Some jsonBytes
       ∧ json_Unmarshal (Unmarshaler := refjson.unmarshal_ToolDef) jsonBytes = Some td
       ∧ ToolDef_Name td = "lookup")
  ∧ toOpenAITools (marshaler := refjson.marshal)
      (unmarshaler := refjson.unmarshal_ToolDef)
      {["lookup" := unnamed_declarer]} []
  ∧ ∀ tools,
      toOpenAITools (marshaler := refjson.marshal)
        (unmarshaler := refjson.unmarshal_ToolDef)
        {["lookup" := unnamed_declarer]} tools →
      tools = [].
Proof.
  split; [by eexists |]. split; [| split].
  - eexists _, _. split; [reflexivity |]. split; [by vm_compute | done].
  - by apply (range_in_order (marshaler := refjson.marshal)
                (unmarshaler := refjson.unmarshal_ToolDef)
                {["lookup" := unnamed_declarer]} [("lookup", unnamed_declarer)]);
      rewrite map_to_list_singleton.
  - intros tools Hrun. destruct Hrun as [kvs Hperm].
    rewrite map_to_list_singleton in Hperm.
    apply Permutation_singleton_r in Hperm as ->. by vm_compute.
Qed.

(** * Further properties *)

(** ** Inbound translation: nothing is lost, nothing is reordered *)

Section InboundPreservation.
Context {marshaler : Marshaler}.

Lemma call_prefix_ne (n : string) : "call_" +:+ n ≠ "".
Proof. done. Qed.

Lemma filter_flush_correlated role text calls :
  filter (λ m, openai.ToolCallID m ≠ "") (flush role text calls) = [].
Proof. unfold flush. by case_decide. Qed.

Lemma loop_results role ps st :
  filter (λ m, openai.ToolCallID m ≠ "") (messages (fold_left (part_step role) ps st)) =
    filter (λ m, openai.ToolCallID m ≠ "") (messages st)
    ++ map tool_message (omap genai.Part_FunctionResponse ps).
Proof.
  revert st. induction ps as [|p ps IH]; intros st; simpl.
  - by rewrite app_nil_r.
  - rewrite IH. destruct (genai.Part_FunctionResponse p) as [fr|] eqn:Hfr.
    + rewrite (part_step_result _ _ _ fr) by done. simpl.
      rewrite !filter_app, filter_flush_correlated. simpl.
      by rewrite <- app_assoc.
    + by rewrite part_step_accumulate by done.
Qed.

Lemma turn_results c :
  filter (λ m, openai.ToolCallID m ≠ "") (turn_messages c) =
    map tool_message (omap genai.Part_FunctionResponse (genai.Parts c)).
Proof.
  unfold turn_messages. rewrite content_step_finish. simpl.
  by rewrite filter_app, loop_results, filter_flush_correlated, app_nil_r.
Qed.

(** X1.  Translation is local to turns: the messages of a conversation
    made of two parts are the messages of the first part followed by
    those of the second. *)
Theorem translation_is_turn_local (cs1 cs2 : list genai.Content) :
  ∃ ms1 ms2,
    toOpenAIMessages cs1 = Ok ms1
    ∧ toOpenAIMessages cs2 = Ok ms2
    ∧ toOpenAIMessages (cs1 ++ cs2) = Ok (ms1 ++ ms2).
Proof.
  exists (conversation_messages cs1), (conversation_messages cs2).
  by rewrite !toOpenAIMessages_Ok, conversation_messages_app.
Qed.

Lemma tool_results_keep_their_order_aux contents :
  filter (λ m, openai.ToolCallID m ≠ "") (conversation_messages contents)
    = map tool_message (tool_results contents).
Proof.
  unfold tool_results.
  induction contents as [|c cs IH]; [done |].
  rewrite conversation_messages_cons, filter_app, IH, turn_results. simpl.
  by rewrite map_app.
Qed.

(** X2.  The messages that carry a correlation identifier are the tool
    messages of the tool results of the conversation, one for each, in
    the order of the fragments. *)
Theorem tool_results_keep_their_order (contents : list genai.Content) :
  ∃ ms,
    toOpenAIMessages contents = Ok ms
    ∧ filter (λ m, openai.ToolCallID m ≠ "") ms
      = map tool_message (tool_results contents).
Proof.
  exists (conversation_messages contents). split; [done |].
  apply tool_results_keep_their_order_aux.
Qed.

End InboundPreservation.

Section InboundPreservationCalls.
Context {marshaler : Marshaler}.

Lemma calls_of_flush role text calls :
  concat (map openai.ToolCalls (flush role text calls)) = calls.
Proof.
  unfold flush. case_decide as Hp; simpl; [by rewrite app_nil_r |].
  destruct calls; [done |]. exfalso. apply Hp. by right.
Qed.

Lemma loop_calls role ps st :
  let st' := fold_left (part_step role) ps st in
  concat (map openai.ToolCalls (messages st')) ++ toolCalls st' =
    concat (map openai.ToolCalls (messages st)) ++ toolCalls st
    ++ unit_calls (filter (λ p, genai.Part_FunctionResponse p = None) ps).
Proof.
  revert st. induction ps as [|p ps IH]; intros st; simpl.
  - unfold unit_calls. simpl. by rewrite app_nil_r.
  - simpl in IH. rewrite IH. destruct (genai.Part_FunctionResponse p) as [fr|] eqn:Hfr.
    + rewrite (part_step_result _ _ _ fr) by done. simpl.
      rewrite filter_cons_False by (by rewrite Hfr).
      rewrite !map_app, !concat_app, calls_of_flush. simpl.
      by rewrite !app_nil_r, <- !app_assoc.
    + rewrite part_step_accumulate by done. simpl.
      rewrite filter_cons_True by done.
      by rewrite (unit_calls_cons p), <- !app_assoc.
Qed.

Lemma turn_calls c :
  concat (map openai.ToolCalls (turn_messages c)) =
    unit_calls (filter (λ p, genai.Part_FunctionResponse p = None) (genai.Parts c)).
Proof.
  unfold turn_messages. rewrite content_step_finish. simpl.
  rewrite map_app, concat_app, calls_of_flush.
  by rewrite (loop_calls (normalize_role (genai.Role c)) (genai.Parts c) (mkState [] "" [])).
Qed.

Lemma unit_calls_app ps1 ps2 : unit_calls (ps1 ++ ps2) = unit_calls ps1 ++ unit_calls ps2.
Proof. apply omap_app. Qed.

(** X3.  The tool calls of the output messages, read in message order,
    are the tool calls of the fragments that are not tool results, one
    for each, in the order of the fragments. *)
Theorem tool_calls_keep_their_order (contents : list genai.Content) :
  ∃ ms,
    toOpenAIMessages contents = Ok ms
    ∧ concat (map openai.ToolCalls ms) = unit_calls (accumulating_parts contents).
Proof.
  exists (conversation_messages contents). split; [done |].
  unfold accumulating_parts.
  induction contents as [|c cs IH]; [done |].
  rewrite conversation_messages_cons, map_app, concat_app, IH, turn_calls. simpl.
  by rewrite unit_calls_app.
Qed.

Lemma wire_text_app ms1 ms2 : wire_text (ms1 ++ ms2) = wire_text ms1 +:+ wire_text ms2.
Proof.
  unfold wire_text. rewrite filter_app.
  induction (filter (λ m, openai.ToolCallID m = "") ms1) as [|m ms IH]; [done |].
  simpl. by rewrite IH, append_assoc.
Qed.

Lemma wire_text_flush role text calls : wire_text (flush role text calls) = text.
Proof.
  unfold flush, wire_text. case_decide as Hp; simpl.
  - by rewrite append_nil_r.
  - destruct (decide (text = "")) as [->|]; [done |]. exfalso. apply Hp. by left.
Qed.

Lemma wire_text_tool_message fr : wire_text [tool_message fr] = "".
Proof. done. Qed.

Lemma unit_text_app ps1 ps2 : unit_text (ps1 ++ ps2) = unit_text ps1 +:+ unit_text ps2.
Proof.
  unfold unit_text. induction ps1 as [|p ps1 IH]; [done |].
  simpl. by rewrite IH, append_assoc.
Qed.

Lemma loop_text role ps st :
  let st' := fold_left (part_step role) ps st in
  wire_text (messages st') +:+ textContent st' =
    wire_text (messages st) +:+ textContent st
    +:+ unit_text (filter (λ p, genai.Part_FunctionResponse p = None) ps).
Proof.
  revert st. induction ps as [|p ps IH]; intros st; simpl.
  - by rewrite append_nil_r.
  - simpl in IH. rewrite IH. destruct (genai.Part_FunctionResponse p) as [fr|] eqn:Hfr.
    + rewrite (part_step_result _ _ _ fr) by done. simpl.
      rewrite filter_cons_False by (by rewrite Hfr).
      rewrite !wire_text_app, wire_text_flush, wire_text_tool_message.
      by rewrite !append_nil_r, !append_assoc.
    + rewrite part_step_accumulate by done. simpl.
      rewrite filter_cons_True by done.
      change (unit_text (p :: ?l)) with (decoded_content p +:+ unit_text l).
      by rewrite !append_assoc.
Qed.

Lemma turn_text c :
  wire_text (turn_messages c) =
    unit_text (filter (λ p, genai.Part_FunctionResponse p = None) (genai.Parts c)).
Proof.
  unfold turn_messages. rewrite content_step_finish. simpl.
  rewrite wire_text_app, wire_text_flush.
  by rewrite (loop_text (normalize_role (genai.Role c)) (genai.Parts c) (mkState [] "" [])).
Qed.

(** X4.  The text of the output messages without a correlation
    identifier, joined in message order, is the decoded content of the
    fragments that are not tool results, joined in fragment order: no
    byte of text is lost, added or moved. *)
Theorem text_is_kept (contents : list genai.Content) :
  ∃ ms,
    toOpenAIMessages contents = Ok ms
    ∧ wire_text ms = unit_text (accumulating_parts contents).
Proof.
  exists (conversation_messages contents). split; [done |].
  unfold accumulating_parts.
  induction contents as [|c cs IH]; [done |].
  rewrite conversation_messages_cons, wire_text_app, IH, turn_text. simpl.
  by rewrite unit_text_app.
Qed.

Lemma part_step_mask role st p : part_step role st (mask_result p) = part_step role st p.
Proof.
  unfold mask_result. destruct (genai.Part_FunctionResponse p) as [fr|] eqn:Hfr; [| done].
  by rewrite !(part_step_result _ _ _ fr).
Qed.

Lemma content_step_mask ms c : content_step ms (mask_results c) = content_step ms c.
Proof.
  unfold content_step. simpl.
  enough (∀ st, fold_left (part_step (normalize_role (genai.Role c)))
                  (map mask_result (genai.Parts c)) st
                = fold_left (part_step (normalize_role (genai.Role c))) (genai.Parts c) st)
    as -> by done.
  induction (genai.Parts c) as [|p ps IH]; intros st; simpl; [done |].
  by rewrite part_step_mask, IH.
Qed.

(** X5.  Of a fragment that holds a tool result only the tool result is
    read: its text, inline data and tool call do not reach the output. *)
Theorem tool_result_masks_other_fields (contents : list genai.Content) :
  toOpenAIMessages (map mask_results contents) = toOpenAIMessages contents.
Proof.
  unfold toOpenAIMessages. f_equal.
  enough (∀ ms, fold_left content_step (map mask_results contents) ms
                = fold_left content_step contents ms) as -> by done.
  induction contents as [|c cs IH]; intros ms; simpl; [done |].
  by rewrite content_step_mask, IH.
Qed.

End InboundPreservationCalls.

(** The loop of [toOpenAISystemMessage] joins the Text fields. *)
Lemma system_message_form c :
  toOpenAISystemMessage c
    = Ok (openai.mkMessage "system" (joined_text (genai.Parts c)) [] "").
Proof.
  unfold toOpenAISystemMessage. do 2 f_equal.
  enough (∀ acc, fold_left (λ textContent p,
                              if decide (genai.Text p ≠ "")
                              then textContent +:+ genai.Text p
                              else textContent) (genai.Parts c) acc
                 = acc +:+ joined_text (genai.Parts c)) as Hgen by apply Hgen.
  induction (genai.Parts c) as [|p ps IH]; intros acc; simpl.
  - by rewrite append_nil_r.
  - rewrite IH. case_decide as Ht.
    + by rewrite append_assoc.
    + by rewrite Ht.
Qed.

Section InboundShape.
Context {marshaler : Marshaler}.

Lemma normalize_role_wire role :
  normalize_role role ≠ "model" ∧ normalize_role role ≠ "".
Proof. unfold normalize_role. by repeat case_decide. Qed.

(** X6.  No message of the output has the role "model" or an empty role:
    the wire only sees normalized roles and the tool role. *)
Theorem wire_roles_are_normalized (contents : list genai.Content) :
  ∃ ms,
    toOpenAIMessages contents = Ok ms
    ∧ Forall (λ m, openai.Role m ≠ "model" ∧ openai.Role m ≠ "") ms.
Proof.
  exists (conversation_messages contents). split; [done |].
  apply Forall_forall. intros m (c & _ & Hm)%conversation_classified.
  destruct Hm as [(p & fr & _ & _ & ->)|(text & calls & _ & ->)]; simpl.
  - done.
  - apply normalize_role_wire.
Qed.

(** X7.  A correlation identifier carries the tool name and nothing
    else: two tool calls get the same identifier exactly when they name
    the same tool, whatever their arguments, and a tool message answers
    a tool call's identifier exactly when the result names the call's
    tool. *)
Theorem identifier_is_the_tool_name
    (fc1 fc2 : genai.FunctionCall) (fr : genai.FunctionResponse) :
  (openai.ID (tool_call fc1) = openai.ID (tool_call fc2)
     ↔ genai.FunctionCall_Name fc1 = genai.FunctionCall_Name fc2)
  ∧ (openai.ToolCallID (tool_message fr) = openai.ID (tool_call fc1)
     ↔ genai.FunctionResponse_Name fr = genai.FunctionCall_Name fc1).
Proof.
  simpl. split; (split; [apply (String.app_inj "call_") | by intros ->]).
Qed.

Lemma length_flush_le role text calls : (length (flush role text calls) ≤ 1)%nat.
Proof. unfold flush. case_decide; simpl; lia. Qed.

Lemma loop_length role ps st :
  (length (messages (fold_left (part_step role) ps st))
   ≤ length (messages st) + 2 * length (omap genai.Part_FunctionResponse ps))%nat.
Proof.
  revert st. induction ps as [|p ps IH]; intros st; [simpl; lia |].
  cbn [fold_left]. etrans; [apply IH |].
  destruct (genai.Part_FunctionResponse p) as [fr|] eqn:Hfr.
  - assert (omap genai.Part_FunctionResponse (p :: ps)
            = fr :: omap genai.Part_FunctionResponse ps) as ->
      by (simpl; by rewrite Hfr).
    rewrite (part_step_result _ _ _ fr) by done. cbn [messages length].
    rewrite !length_app. cbn [length].
    pose proof (length_flush_le role (textContent st) (toolCalls st)). lia.
  - assert (omap genai.Part_FunctionResponse (p :: ps)
            = omap genai.Part_FunctionResponse ps) as ->
      by (simpl; by rewrite Hfr).
    rewrite part_step_accumulate by done. cbn [messages]. lia.
Qed.

(** X8.  The output has at least one message for each tool result, and
    at most one message for each turn plus two for each tool result. *)
Theorem message_count_is_bounded (contents : list genai.Content) :
  ∃ ms,
    toOpenAIMessages contents = Ok ms
    ∧ (length (tool_results contents) ≤ length ms)%nat
    ∧ (length ms ≤ length contents + 2 * length (tool_results contents))%nat.
Proof.
  exists (conversation_messages contents). split; [done |]. split.
  - rewrite <- (length_map tool_message), <- tool_results_keep_their_order_aux.
    apply length_filter.
  - unfold tool_results.
    induction contents as [|c cs IH]; [simpl; lia |].
    rewrite conversation_messages_cons. cbn [flat_map]. rewrite !length_app.
    cbn [length].
    assert (length (turn_messages c)
            ≤ 1 + 2 * length (omap genai.Part_FunctionResponse (genai.Parts c)))%nat
      as Hturn.
    { unfold turn_messages. rewrite content_step_finish. simpl.
      rewrite length_app.
      pose proof (loop_length (normalize_role (genai.Role c)) (genai.Parts c)
                    (mkState [] "" [])) as Hloop.
      pose proof (length_flush_le (normalize_role (genai.Role c))
                    (textContent (fold_left (part_step (normalize_role (genai.Role c)))
                                    (genai.Parts c) (mkState [] "" [])))
                    (toolCalls (fold_left (part_step (normalize_role (genai.Role c)))
                                  (genai.Parts c) (mkState [] "" [])))).
      simpl in Hloop. lia. }
    lia.
Qed.

(** X9.  The system message has the role "system" and, as content, the
    Text fields of the instruction's fragments joined in order; the
    instruction's role, inline data, tool calls and tool results are not
    read, and translation never fails. *)
Theorem system_message_is_joined_text (c c' : genai.Content) :
  toOpenAISystemMessage c
    = Ok (openai.mkMessage "system" (joined_text (genai.Parts c)) [] "")
  ∧ (map genai.Text (genai.Parts c) = map genai.Text (genai.Parts c') →
     toOpenAISystemMessage c = toOpenAISystemMessage c').
Proof.
  split; [apply system_message_form |].
  intros Hsame. rewrite !system_message_form. do 2 f_equal.
  unfold joined_text.
  assert (∀ ps, foldr (λ p acc, genai.Text p +:+ acc) "" ps
                = foldr append "" (map genai.Text ps)) as Hmap.
  { clear. induction ps as [|p ps IH]; simpl; [done | by rewrite IH]. }
  by rewrite !Hmap, Hsame.
Qed.

End InboundShape.

Lemma system_message_is_joined_text_witness :
  toOpenAISystemMessage mixed_turn = toOpenAISystemMessage
    (genai.mkContent "system"
       [genai.NewPartFromText "see "; genai.NewPartFromText ""; genai.NewPartFromText " now"]).
Proof.
  apply (proj2 (system_message_is_joined_text mixed_turn
                  (genai.mkContent "system"
                     [genai.NewPartFromText "see "; genai.NewPartFromText "";
                      genai.NewPartFromText " now"]))).
  reflexivity.
Defined.

(** ** Outbound translation: the shape of a response *)

Lemma length_omap_le {A B : Type} (f : A → option B) (l : list A) :
  (length (omap f l) ≤ length l)%nat.
Proof.
  induction l as [|x l IH]; [done |].
  csimpl. destruct (f x); cbn [length]; lia.
Qed.

Section OutboundShape.
Context {unmarshaler : Unmarshaler (gmap string any)}.

Lemma call_fragment_shape tc p :
  call_fragment tc = Some p →
  genai.Text p = "" ∧ genai.InlineData p = None
  ∧ genai.Part_FunctionResponse p = None
  ∧ genai.FunctionCall_Name <$> genai.Part_FunctionCall p
    = Some (openai.Name (openai.Function tc)).
Proof.
  unfold call_fragment. destruct (json_Unmarshal _); simpl; [| done].
  by intros [= <-].
Qed.

Lemma call_names_sublist tcs :
  call_names (omap call_fragment tcs)
    `sublist_of` map (λ tc, openai.Name (openai.Function tc)) tcs.
Proof.
  induction tcs as [|tc tcs IH]; simpl; [done |].
  destruct (call_fragment tc) as [p|] eqn:Hp; simpl.
  - apply call_fragment_shape in Hp as (_ & _ & _ & Hname).
    unfold call_names in *. simpl. rewrite Hname. simpl. by apply sublist_skip.
  - by apply sublist_cons.
Qed.

(** X10.  A response with at least one choice translates to a turn of
    role "model" that never holds a tool result or inline data, has at
    most one fragment more than the first choice has tool calls, and
    whose tool-call names are names of the first choice's tool calls,
    in their order; the identifiers sent by the endpoint are not kept. *)
Theorem response_is_a_model_turn
    (choice : openai.ChatCompletionChoice) (rest : list openai.ChatCompletionChoice) :
  ∃ parts,
    toADKResponse (openai.mkResponse (choice :: rest))
      = Ok (model.mkLLMResponse (genai.mkContent "model" parts))
    ∧ Forall (λ p, genai.Part_FunctionResponse p = None ∧ genai.InlineData p = None)
             parts
    ∧ (length parts ≤ 1 + length (openai.ToolCalls (openai.Message choice)))%nat
    ∧ call_names parts
        `sublist_of` map (λ tc, openai.Name (openai.Function tc))
                         (openai.ToolCalls (openai.Message choice)).
Proof.
  eexists. split; [apply toADKResponse_first_choice |]. split; [| split].
  - apply Forall_app. split.
    + unfold text_fragments. case_decide; by repeat constructor.
    + apply Forall_forall. intros p (tc & _ & Hp)%list_elem_of_omap.
      by apply call_fragment_shape in Hp as (_ & ? & ? & _).
  - rewrite length_app.
    assert (length (text_fragments (openai.Content (openai.Message choice))) ≤ 1)%nat
      by (unfold text_fragments; case_decide; simpl; lia).
    pose proof (length_omap_le call_fragment (openai.ToolCalls (openai.Message choice))).
    lia.
  - unfold call_names. rewrite omap_app.
    assert (omap (λ p, genai.FunctionCall_Name <$> genai.Part_FunctionCall p)
              (text_fragments (openai.Content (openai.Message choice))) = []) as ->
      by (unfold text_fragments; by case_decide).
    apply call_names_sublist.
Qed.

(** X11.  After the repair the arguments never hold a string under
    "artifact_names"; the repair keeps the set of keys and repairing
    twice is repairing once. *)
Theorem artifact_names_repair_is_final (args : gmap string any) :
  (∀ s, fix_artifact_names args !! "artifact_names" ≠ Some (of_string s))
  ∧ dom (fix_artifact_names args) = dom args
  ∧ fix_artifact_names (fix_artifact_names args) = fix_artifact_names args.
Proof.
  assert (∀ s, fix_artifact_names args !! "artifact_names" ≠ Some (of_string s))
    as Hfinal.
  { intros s. unfold fix_artifact_names.
    destruct (args !! "artifact_names") as [val|] eqn:Hval; [| by rewrite Hval].
    destruct (as_string val) as [strVal|] eqn:Hs.
    - by rewrite lookup_insert_eq.
    - rewrite Hval. intros [= ->]. done. }
  split; [done |]. split.
  - unfold fix_artifact_names.
    destruct (args !! "artifact_names") as [val|] eqn:Hval; [| done].
    destruct (as_string val); [| done].
    rewrite dom_insert_L. apply subseteq_union_1_L, singleton_subseteq_l.
    apply elem_of_dom. by eexists.
  - unfold fix_artifact_names at 1.
    destruct (fix_artifact_names args !! "artifact_names") as [val|] eqn:Hval; [| done].
    destruct val; simpl; try done. by destruct (Hfinal s).
Qed.

End OutboundShape.

(** ** A tool call sent out and read back *)

Section RoundTrip.
Context {marshaler : Marshaler} {unmarshaler : Unmarshaler (gmap string any)}.

(** X12.  When the codec decodes the encoding of a tool call's arguments
    to the same arguments, the tool-call record that inbound translation
    builds for the call is read back by outbound translation as a tool
    call of the same name whose arguments are the repaired original
    arguments. *)
Theorem tool_call_round_trip
    (fc : genai.FunctionCall) (jsonBytes : list byte) (parts : list genai.Part) :
  json_Marshal (of_map (genai.FunctionCall_Args fc)) = Some jsonBytes →
  json_Unmarshal jsonBytes = Some (genai.FunctionCall_Args fc) →
  tool_call_step parts (tool_call fc) =
    parts ++ [genai.NewPartFromFunctionCall (genai.FunctionCall_Name fc)
                (fix_artifact_names (genai.FunctionCall_Args fc))].
Proof.
  intros Henc Hdec. unfold tool_call_step, tool_call. simpl.
  rewrite Henc. simpl. by rewrite list_byte_of_string_of_list_byte, Hdec.
Qed.

End RoundTrip.

Lemma tool_call_round_trip_witness :
  tool_call_step (unmarshaler := refjson.unmarshal_map) []
      (tool_call (marshaler := refjson.marshal)
         (genai.mkFunctionCall "load_artifacts" load_args)) =
    [genai.NewPartFromFunctionCall "load_artifacts"
       (<["artifact_names" := of_strings ["a.txt"]]> load_args)].
Proof.
  refine (eq_trans
    (tool_call_round_trip (marshaler := refjson.marshal)
       (unmarshaler := refjson.unmarshal_map)
       (genai.mkFunctionCall "load_artifacts" load_args)
       (list_byte_of_string (refjson.encode (of_map load_args))) [] eq_refl _) _).
  - by vm_compute.
  - reflexivity.
Defined.

(** ** The tool catalog, whatever the iteration order *)

Section CatalogOrder.
Context {marshaler : Marshaler} {unmarshaler : Unmarshaler ToolDef}.

Lemma advertised_shape v t :
  advertised v = Some t →
  openai.Tool_Type t = "function"
  ∧ openai.FunctionDefinition_Name (openai.Tool_Function t) ≠ "".
Proof.
  unfold advertised. destruct (extracted v) as [[[name description] parameters]|];
    simpl; [| done].
  case_decide; [done |]. by intros [= <-].
Qed.

Lemma toOpenAITools_advertised adkTools tools :
  toOpenAITools adkTools tools →
  tools ≡ₚ omap advertised (map_to_list adkTools).*2.
Proof.
  intros [kvs Hperm]. rewrite tools_loop. simpl. by rewrite Hperm.
Qed.

(** X13.  The iteration order of the tool map is the only freedom of the
    catalog: two runs on the same map give the same entries up to their
    order.  Every entry has the type "function" and a non-empty name,
    there are at most as many entries as tools, and the empty map has
    the empty catalog. *)
Theorem catalog_is_unique_up_to_order
    (adkTools : gmap string tool_value) (tools tools' : list openai.Tool) :
  toOpenAITools adkTools tools →
  toOpenAITools adkTools tools' →
  tools ≡ₚ tools'
  ∧ Forall (λ t, openai.Tool_Type t = "function"
                 ∧ openai.FunctionDefinition_Name (openai.Tool_Function t) ≠ "") tools
  ∧ (length tools ≤ size adkTools)%nat
  ∧ (adkTools = ∅ → tools = []).
Proof.
  intros Hrun Hrun'.
  pose proof (toOpenAITools_advertised _ _ Hrun) as Hperm.
  pose proof (toOpenAITools_advertised _ _ Hrun') as Hperm'.
  split; [by rewrite Hperm, Hperm' |]. split; [| split].
  - rewrite Hperm. apply Forall_forall.
    intros t (v & _ & Ht)%list_elem_of_omap. by apply (advertised_shape v).
  - rewrite Hperm. etrans; [apply length_omap_le |].
    by rewrite length_fmap, length_map_to_list.
  - intros ->. rewrite map_to_list_empty in Hperm.
    by apply Permutation_nil_r in Hperm.
Qed.

End CatalogOrder.

Lemma catalog_is_unique_up_to_order_witness :
  [search_entry] ≡ₚ [search_entry]
  ∧ Forall (λ t, openai.Tool_Type t = "function"
                 ∧ openai.FunctionDefinition_Name (openai.Tool_Function t) ≠ "")
           [search_entry]
  ∧ (length [search_entry] ≤ size sample_tools)%nat
  ∧ (sample_tools = ∅ → [search_entry] = []).
Proof.
  assert (toOpenAITools (marshaler := refjson.marshal)
            (unmarshaler := refjson.unmarshal_ToolDef) sample_tools [search_entry])
    as Hrun.
  { replace [search_entry]
      with (fold_left (tool_step (marshaler := refjson.marshal)
                                 (unmarshaler := refjson.unmarshal_ToolDef))
                      (map_to_list sample_tools).*2 []) by (by vm_compute).
    by constructor. }
  exact (catalog_is_unique_up_to_order (marshaler := refjson.marshal)
           (unmarshaler := refjson.unmarshal_ToolDef)
           sample_tools [search_entry] [search_entry] Hrun Hrun).
Defined.

(** ** One call of the model *)

Section GenerateTheorems.
Context {marshaler : Marshaler} {unmarshaler_args : Unmarshaler (gmap string any)}
        {unmarshaler_tool : Unmarshaler ToolDef} {client : ChatClient}.

Lemma GenerateContent_yields_form m req stream tools :
  GenerateContent_yields m req stream tools =
    [outcome (CreateChatCompletion (wire_request m req tools))].
Proof.
  unfold GenerateContent_yields, wire_request, system_prefix, outcome.
  rewrite toOpenAIMessages_Ok.
  assert (∀ answer,
            match answer with
            | Ok resp =>
                match toADKResponse resp with
                | Ok adkResp => [Ok adkResp]
                | Err err => [Err ("failed to convert response: " +:+ err)]
                end
            | Err err => [Err ("ollama call failed: " +:+ err)]
            end = [outcome answer]) as Hout.
  { intros [[[|choice rest]]|err];
      [done | by rewrite toADKResponse_first_choice | done]. }
  destruct (Config req) as [config|]; [| apply Hout].
  destruct (genai.SystemInstruction config) as [instruction|]; [| apply Hout].
  rewrite system_message_form. apply Hout.
Qed.

Lemma generate_is_one_exchange_aux m req stream yields :
  GenerateContent m req stream yields →
  ∃ tools,
    toOpenAITools (Tools req) tools
    ∧ yields = [outcome (CreateChatCompletion (wire_request m req tools))].
Proof.
  intros [tools _ Htools|Hnone].
  - exists tools. split; [done | apply GenerateContent_yields_form].
  - exists []. split; [| apply GenerateContent_yields_form].
    assert (Tools req = ∅) as ->.
    { apply map_size_empty_iff. lia. }
    apply (range_in_order ∅ []). by rewrite map_to_list_empty.
Qed.


(** X15.  A call of the model fails in two ways only: the exchange with
    the endpoint failed, and its error is passed on behind the prefix
    "ollama call failed: ", or the endpoint answered without choices.
    The two conversion errors of the inbound side never occur, and a
    response that is yielded has the role "model". *)
Theorem generate_fails_in_two_ways
    (m : ModelStruct) (req : LLMRequest) (stream : bool)
    (yields : list (result model.LLMResponse)) :
  GenerateContent m req stream yields →
  ∃ yielded,
    yields = [yielded]
    ∧ match yielded with
      | Err msg =>
          (∃ request err, CreateChatCompletion request = Err err
                          ∧ msg = "ollama call failed: " +:+ err)
          ∨ (∃ request, CreateChatCompletion request = Ok (openai.mkResponse [])
                        ∧ msg = "failed to convert response: no choices returned from ollama")
      | Ok response => genai.Role (model.Content response) = "model"
      end.
Proof.
  intros (tools & _ & ->)%generate_is_one_exchange_aux.
  eexists. split; [done |]. unfold outcome.
  destruct (CreateChatCompletion _) as [[[|choice rest]]|err] eqn:Hanswer; simpl.
  - right. by eexists.
  - done.
  - left. by eexists _, _.
Qed.

End GenerateTheorems.


Lemma generate_fails_in_two_ways_witness :
  ∃ yielded,
    GenerateContent_yields (marshaler := refjson.marshal)
      (unmarshaler_args := refjson.unmarshal_map) (client := canned_client)
      (mkModelStruct "down") capital_request true [] = [yielded]
    ∧ match yielded with
      | Err msg =>
          (∃ request err, canned_client request = Err err
                          ∧ msg = "ollama call failed: " +:+ err)
          ∨ (∃ request, canned_client request = Ok (openai.mkResponse [])
                        ∧ msg = "failed to convert response: no choices returned from ollama")
      | Ok response => genai.Role (model.Content response) = "model"
      end.
Proof.
  apply (generate_fails_in_two_ways (marshaler := refjson.marshal)
           (unmarshaler_args := refjson.unmarshal_map)
           (unmarshaler_tool := refjson.unmarshal_ToolDef) (client := canned_client)
           (mkModelStruct "down") capital_request true).
  apply generate_without_tools. vm_compute. lia.
Defined.

(** The scenario of a whole call: the system instruction leads the
    request, and the endpoint's tool call comes back as a fragment. *)
Example capital_request_call :
  GenerateContent_yields (marshaler := refjson.marshal)
      (unmarshaler_args := refjson.unmarshal_map) (client := canned_client)
      (mkModelStruct "qwen2.5:latest") capital_request false [] =
    [Ok (model.mkLLMResponse (genai.mkContent "model"
           [genai.NewPartFromFunctionCall "search" search_args]))]
  ∧ wire_request (marshaler := refjson.marshal)
      (mkModelStruct "qwen2.5:latest") capital_request [] =
    openai.mkRequest "qwen2.5:latest"
      [openai.mkMessage "system" "Be brief." [] "";
       openai.mkMessage "user" "What is the capital of France?" [] ""] [].
Proof. split; by vm_compute. Qed.

(** ** The artifact service *)

Lemma prefix_spec (p s : string) : String.prefix p s = true ↔ ∃ r, s = p +:+ r.
Proof.
  revert p. induction s as [|c s IH]; intros [|a p]; simpl.
  - split; [by exists "" | done].
  - split; [done | by intros [r [=]]].
  - split; [by eexists | done].
  - destruct (ascii_dec a c) as [->|Hne].
    + rewrite IH. split.
      * intros [r ->]. by exists r.
      * intros [r [= ->]]. by exists r.
    + split; [done |]. intros [r [= ? _]]. by destruct Hne.
Qed.

Lemma Contains_spec (s substr : string) :
  strings.Contains s substr = true ↔ ∃ a b, s = a +:+ substr +:+ b.
Proof.
  split.
  - induction s as [|c s IH]; cbn [strings.Contains].
    + rewrite orb_false_r. intros [r Hr]%prefix_spec. by exists "", r.
    + intros [[r Hr]%prefix_spec|(a & b & ->)%IH]%orb_true_iff.
      * by exists "", r.
      * by exists (String c a), b.
  - intros (a & b & ->). induction a as [|c a IH].
    + assert (String.prefix substr ("" +:+ substr +:+ b) = true) as Hp
        by (apply prefix_spec; by exists b).
      destruct ("" +:+ substr +:+ b); cbn [strings.Contains]; by rewrite Hp.
    + change (String c a +:+ substr +:+ b) with (String c (a +:+ substr +:+ b)).
      cbn [strings.Contains]. rewrite IH. apply orb_true_r.
Qed.

Section ServiceTheorems.
Context {fs : services.FileSystem}.

Lemma Load_unsafe (req : services.LoadRequest) :
  unsafe_name (services.LoadRequest_FileName req) ↔
  strings.Contains (services.LoadRequest_FileName req) ".."
  || strings.HasPrefix (services.LoadRequest_FileName req) "/" = true.
Proof.
  unfold unsafe_name, strings.HasPrefix.
  by rewrite orb_true_iff, Contains_spec, prefix_spec.
Qed.

Lemma load_refuses_unsafe_names_aux s req response :
  services.Load s req = Ok response →
  ¬ unsafe_name (services.LoadRequest_FileName req)
  ∧ ∃ content,
      services.ReadFile
        (services.Join (services.RootDir s) (services.LoadRequest_FileName req))
        = Ok content
      ∧ response = loaded content.
Proof.
  unfold services.Load.
  destruct (strings.Contains _ _ || strings.HasPrefix _ _) eqn:Hguard; [done |].
  destruct (services.ReadFile _) as [content|err]; [| done].
  intros [= <-]. split.
  - intros Hbad%Load_unsafe. by rewrite Hguard in Hbad.
  - by exists content.
Qed.

(** X16.  [Load] refuses a file name that holds ".." anywhere or starts
    with "/", with the error "invalid filename: " and the name, whatever
    the file system holds.  When [Load] succeeds, the name is not of
    that kind, the file at the root directory joined with the name was
    read, and the response carries its content. *)
Theorem load_refuses_unsafe_names
    (s : services.FileSystemArtifactService) (req : services.LoadRequest) :
  let name := services.LoadRequest_FileName req in
  (unsafe_name name → services.Load s req = Err ("invalid filename: " +:+ name))
  ∧ (∀ response, services.Load s req = Ok response →
       ¬ unsafe_name name
       ∧ ∃ content,
           services.ReadFile (services.Join (services.RootDir s) name) = Ok content
           ∧ response = loaded content).
Proof.
  simpl. split.
  - intros Hbad%Load_unsafe. unfold services.Load. by rewrite Hbad.
  - intros response. apply load_refuses_unsafe_names_aux.
Qed.

End ServiceTheorems.

Section ServiceAndAdapter.
Context {fs : services.FileSystem} {marshaler : Marshaler}.

(** X17.  The fragment of a loaded artifact, put into a turn of any
    role, reaches the wire as exactly one tool message: it answers the
    identifier "call_load_artifacts" and its content is the encoding of
    the object that holds the file's content under "content". *)
Theorem loaded_artifact_is_a_tool_message
    (s : services.FileSystemArtifactService) (req : services.LoadRequest)
    (response : services.LoadResponse) (role : string) :
  services.Load s req = Ok response →
  ∃ content,
    services.ReadFile
      (services.Join (services.RootDir s) (services.LoadRequest_FileName req))
      = Ok content
    ∧ toOpenAIMessages [genai.mkContent role [services.LoadResponse_Part response]] =
        Ok [openai.mkMessage "tool"
              (string_of_result
                 (json_Marshal
                    (of_map {["content" := of_string (string_of_list_byte content)]})))
              [] "call_load_artifacts"].
Proof.
  intros (_ & content & Hread & ->)%load_refuses_unsafe_names_aux.
  by exists content.
Qed.

End ServiceAndAdapter.

Lemma load_refuses_unsafe_names_witness :
  services.Load (fs := refenv.directory) (services.mkService "/srv")
      (services.mkLoadRequest "docs/../../etc/passwd")
    = Err "invalid filename: docs/../../etc/passwd"
  ∧ ¬ unsafe_name "a.txt".
Proof.
  split.
  - apply (proj1 (load_refuses_unsafe_names (fs := refenv.directory)
                    (services.mkService "/srv")
                    (services.mkLoadRequest "docs/../../etc/passwd"))).
    left. by exists "docs/", "/../etc/passwd".
  - apply (proj2 (load_refuses_unsafe_names (fs := refenv.directory)
                    (services.mkService "/srv") (services.mkLoadRequest "a.txt"))
             (loaded [x68; x69])).
    reflexivity.
Defined.

Lemma loaded_artifact_is_a_tool_message_witness :
  ∃ content,
    services.ReadFile (FileSystem := refenv.directory)
      (services.Join (FileSystem := refenv.directory) "/srv" "a.txt") = Ok content
    ∧ toOpenAIMessages (marshaler := refjson.marshal)
        [genai.mkContent "user"
           [services.LoadResponse_Part (loaded [x68; x69])]] =
        Ok [openai.mkMessage "tool"
              (string_of_result
                 (json_Marshal (Marshaler := refjson.marshal)
                    (of_map {["content" := of_string (string_of_list_byte content)]})))
              [] "call_load_artifacts"].
Proof.
  apply (loaded_artifact_is_a_tool_message (fs := refenv.directory)
           (marshaler := refjson.marshal)
           (services.mkService "/srv") (services.mkLoadRequest "a.txt")
           (loaded [x68; x69]) "user").
  reflexivity.
Defined.

Section ListTheorems.
Context {fs : services.FileSystem}.

Lemma list_loop entries names :
  fold_left services.list_step entries names =
    names ++ map services.Name
               (filter (λ e, String.prefix "." (services.Name e) = false
                             ∧ services.IsDir e = false) entries).
Proof.
  revert names. induction entries as [|e es IH]; intros names; simpl.
  - by rewrite app_nil_r.
  - rewrite IH. unfold services.list_step, strings.HasPrefix.
    destruct (String.prefix "." (services.Name e)) eqn:Hdot.
    + by rewrite filter_cons_False by (intros [? _]; congruence).
    + destruct (services.IsDir e) eqn:Hdir; simpl.
      * by rewrite filter_cons_False by (intros [_ ?]; congruence).
      * rewrite filter_cons_True by done. simpl. by rewrite <- app_assoc.
Qed.

(** X18.  When the root directory can be read, [List] answers with the
    names of its entries that are not directories and do not start with
    ".", each as often as it occurs and in the order of the directory;
    no other name is listed.  When it cannot be read, [List] fails with
    the error behind the prefix "failed to read directory: ". *)
Theorem list_shows_visible_files (s : services.FileSystemArtifactService) :
  match services.ReadDir (services.RootDir s) with
  | Ok entries =>
      ∃ names,
        services.List s = Ok (services.mkListResponse names)
        ∧ names `sublist_of` map services.Name entries
        ∧ ∀ name, name ∈ names ↔
            ∃ e, e ∈ entries ∧ services.Name e = name
                 ∧ services.IsDir e = false
                 ∧ ∀ r, name ≠ "." +:+ r
  | Err err => services.List s = Err ("failed to read directory: " +:+ err)
  end.
Proof.
  unfold services.List.
  destruct (services.ReadDir (services.RootDir s)) as [entries|err]; [| done].
  eexists. split; [done |]. rewrite list_loop. simpl. split.
  - apply (fmap_sublist services.Name), sublist_filter.
  - intros name. rewrite list_elem_of_fmap. split.
    + intros (e & -> & [[Hdot Hdir] He]%list_elem_of_filter).
      exists e. repeat split; try done.
      intros r Hr. assert (String.prefix "." (services.Name e) = true) as Hp
        by (apply prefix_spec; by exists r).
      by rewrite Hp in Hdot.
    + intros (e & He & <- & Hdir & Hdot). exists e. split; [done |].
      apply list_elem_of_filter. split; [| done]. split; [| done].
      destruct (String.prefix "." (services.Name e)) eqn:Hp; [| done].
      apply prefix_spec in Hp as [r Hr]. by destruct (Hdot r).
Qed.

End ListTheorems.

(** The listing of the reference directory. *)
Example list_of_reference_directory :
  services.List (fs := refenv.directory) (services.mkService "/srv")
    = Ok (services.mkListResponse ["a.txt"; "notes.md"]).
Proof. reflexivity. Qed.

(** ** The search tool *)

(** X19.  The search tool never fails and answers with one or two
    results: one exactly when the query is "Capital of France" or
    "capital of France", and otherwise two that both quote the query. *)
Theorem search_answers_with_one_or_two_results (args : tools.SearchArgs) :
  ∃ results,
    tools.search_handler args = Ok (tools.mkSearchResult results)
    ∧ (length results = 1
       ∨ (length results = 2
          ∧ Forall (λ r, strings.Contains r (tools.Query args) = true) results))
    ∧ (length results = 1 ↔
       tools.Query args = "Capital of France" ∨ tools.Query args = "capital of France").
Proof.
  unfold tools.search_handler. eexists. split; [done |].
  case_decide as Hq; simpl.
  - split; [by left | done].
  - split; [| split; [done | by intros ?]].
    right. split; [done |].
    repeat constructor; apply Contains_spec.
    + by eexists "Result 1 for '", _.
    + by eexists "Result 2: details about ", _.
Qed.

(** ** The configuration wizard and the launcher *)

Section WizardTheorems.
Context {unicode : strings.Unicode}.

(** X20.  The wizard never fails.  If the first line read, trimmed, is
    "2", the configuration consists of the next three lines, trimmed,
    whatever they are (an empty line gives an empty field).  Otherwise
    the API key is "ollama" and neither the base URL nor the model name
    is empty, whatever is typed. *)
Theorem wizard_configuration_invariant (stdin : string) :
  let line i := default "" (read_lines 4 stdin !! i) in
  ∃ cfg,
    config.LoadLLMConfig stdin = Ok cfg
    ∧ if decide (strings.TrimSpace (line 0) = "2")
      then cfg = config.mkLLMConfig (strings.TrimSpace (line 1))
                   (strings.TrimSpace (line 2)) (strings.TrimSpace (line 3))
      else config.APIKey cfg = "ollama"
           ∧ config.BaseURL cfg ≠ "" ∧ config.ModelName cfg ≠ "".
Proof.
  unfold config.LoadLLMConfig, config.askProviderDetails. cbn [read_lines].
  destruct (bufio.ReadString config.newline stdin) as [l0 r0].
  destruct (bufio.ReadString config.newline r0) as [l1 r1].
  destruct (bufio.ReadString config.newline r1) as [l2 r2].
  destruct (bufio.ReadString config.newline r2) as [l3 r3].
  cbn [lookup list_lookup default]. simpl.
  destruct (decide (strings.TrimSpace l0 = "2")) as [H2|H2].
  - by eexists.
  - destruct (decide (_ ∨ _)); [| by eexists].
    destruct (decide (strings.TrimSpace l2 ≠ "")),
             (decide (strings.TrimSpace l3 ≠ "")); by eexists.
Qed.

(** X21.  Accepting the wizard's defaults (a first line other than "2",
    then a line that is neither "n" nor "no" once lowered and trimmed)
    gives the configuration that the launcher builds from an empty
    environment when arguments are present. *)
Theorem wizard_defaults_are_the_launcher_defaults (stdin : string) :
  let line i := default "" (read_lines 2 stdin !! i) in
  strings.TrimSpace (line 0) ≠ "2" →
  strings.TrimSpace (strings.ToLower (line 1)) ≠ "n" →
  strings.TrimSpace (strings.ToLower (line 1)) ≠ "no" →
  config.LoadLLMConfig stdin = Ok (main.env_llmConfig (λ _, ""))
  ∧ main.env_llmConfig (λ _, "") = ollama_defaults.
Proof.
  unfold config.LoadLLMConfig, config.askProviderDetails. cbn [read_lines].
  destruct (bufio.ReadString config.newline stdin) as [l0 r0].
  destruct (bufio.ReadString config.newline r0) as [l1 r1].
  cbn [lookup list_lookup default]. simpl. intros H2 Hn Hno.
  rewrite decide_False by done.
  by rewrite decide_False by (intros [?|?]; done).
Qed.

End WizardTheorems.

Lemma wizard_defaults_are_the_launcher_defaults_witness :
  config.LoadLLMConfig (unicode := refenv.ascii_text) ""
    = Ok (main.env_llmConfig (λ _, ""))
  ∧ main.env_llmConfig (λ _, "") = ollama_defaults.
Proof.
  apply (wizard_defaults_are_the_launcher_defaults (unicode := refenv.ascii_text) "");
    by vm_compute.
Defined.

(** A session with the wizard: the private endpoint is chosen, and the
    key is left empty. *)
Example wizard_private_endpoint :
  let nl := String config.newline "" in
  config.LoadLLMConfig (unicode := refenv.ascii_text)
      (" 2 " +:+ nl +:+ "http://llm.corp.net/v1" +:+ nl +:+ nl +:+ "llama3" +:+ nl)
    = Ok (config.mkLLMConfig "http://llm.corp.net/v1" "" "llama3").
Proof. by vm_compute. Qed.

(** X22.  The configuration built from the environment always has the
    API key "ollama", a non-empty base URL and a non-empty model name;
    a variable that is set is used as it is, without trimming. *)
Theorem environment_configuration_is_complete (Getenv : string → string) :
  let cfg := main.env_llmConfig Getenv in
  config.APIKey cfg = "ollama"
  ∧ config.BaseURL cfg ≠ "" ∧ config.ModelName cfg ≠ ""
  ∧ (Getenv "OLLAMA_HOST" ≠ "" → config.BaseURL cfg = Getenv "OLLAMA_HOST")
  ∧ (Getenv "OLLAMA_MODEL" ≠ "" → config.ModelName cfg = Getenv "OLLAMA_MODEL").
Proof.
  unfold main.env_llmConfig. simpl.
  destruct (decide (Getenv "OLLAMA_HOST" = "")) as [Hh|Hh],
           (decide (Getenv "OLLAMA_MODEL" = "")) as [Hm|Hm]; simpl;
    rewrite ?Hh, ?Hm; simpl;
    rewrite ?(decide_True (P := _ = "")), ?(decide_False (P := _ = "")) by done;
    simpl; repeat split; done.
Qed.

Lemma environment_configuration_is_complete_witness :
  config.BaseURL (main.env_llmConfig gpu_environment) = gpu_environment "OLLAMA_HOST".
Proof.
  apply (proj1 (proj2 (proj2 (proj2
           (environment_configuration_is_complete gpu_environment))))).
  by vm_compute.
Defined.

(** X23.  With arguments present the launcher resolves a single
    argument "1" or "console" to the console mode and a single argument
    "2" or "webui" to the three web modes; any other single argument and
    any two or more arguments are passed on unchanged.  The resolution
    never empties the arguments and resolving twice is resolving
    once. *)
Theorem shortcuts_are_resolved_once (args : list string) :
  main.shortcut_runArgs ["1"] = ["console"]
  ∧ main.shortcut_runArgs ["console"] = ["console"]
  ∧ main.shortcut_runArgs ["2"] = ["web"; "api"; "webui"]
  ∧ main.shortcut_runArgs ["webui"] = ["web"; "api"; "webui"]
  ∧ (∀ arg, arg ≠ "1" → arg ≠ "console" → arg ≠ "2" → arg ≠ "webui" →
            main.shortcut_runArgs [arg] = [arg])
  ∧ main.shortcut_runArgs (main.shortcut_runArgs args) = main.shortcut_runArgs args
  ∧ (args ≠ [] → main.shortcut_runArgs args ≠ [])
  ∧ (2 ≤ length args → main.shortcut_runArgs args = args)%nat.
Proof.
  do 4 (split; [reflexivity |]). split.
  { intros arg H1 Hc H2 Hw. unfold main.shortcut_runArgs.
    by rewrite (decide_False (P := arg = "1" ∨ arg = "console")),
               (decide_False (P := arg = "2" ∨ arg = "webui"))
      by (intros [?|?]; done). }
  unfold main.shortcut_runArgs.
  destruct args as [|arg [|arg' args]]; cbn [length].
  - split; [done | split; [done | lia]].
  - destruct (decide (arg = "1" ∨ arg = "console")) as [H1|H1];
      [| destruct (decide (arg = "2" ∨ arg = "webui")) as [H2|H2]].
    + split; [reflexivity | split; [done | lia]].
    + split; [reflexivity | split; [done | lia]].
    + split; [| split; [done | lia]].
      by rewrite (decide_False (P := arg = "1" ∨ arg = "console")),
                 (decide_False (P := arg = "2" ∨ arg = "webui")).
  - done.
Qed.

Lemma shortcuts_are_resolved_once_witness :
  main.shortcut_runArgs ["--port"] = ["--port"]
  ∧ main.shortcut_runArgs ["2"] ≠ []
  ∧ main.shortcut_runArgs ["2"; "webui"] = ["2"; "webui"].
Proof.
  destruct (shortcuts_are_resolved_once ["2"])
    as (_ & _ & _ & _ & Hother & _ & Hfull & _).
  destruct (shortcuts_are_resolved_once ["2"; "webui"])
    as (_ & _ & _ & _ & _ & _ & _ & Hmany).
  split; [| split].
  - apply Hother; discriminate.
  - apply Hfull. discriminate.
  - apply Hmany. simpl. lia.
Defined.

(** ** The reply of the model in the next request *)

Section Echo.
Context {marshaler : Marshaler} {unmarshaler : Unmarshaler (gmap string any)}.

Lemma unit_text_fragments content : unit_text (text_fragments content) = content.
Proof.
  unfold text_fragments. case_decide as Hc; [by rewrite Hc |].
  unfold unit_text, decoded_content. simpl. by rewrite !append_nil_r.
Qed.

Lemma call_fragments_accumulate tcs :
  Forall (λ p, genai.Part_FunctionResponse p = None) (omap call_fragment tcs)
  ∧ unit_text (omap call_fragment tcs) = ""
  ∧ unit_calls (omap call_fragment tcs) = omap echoed_call tcs.
Proof.
  induction tcs as [|tc tcs (IHr & IHt & IHc)]; [done |].
  csimpl.
  destruct (json_Unmarshal
              (list_byte_of_string (openai.Arguments (openai.Function tc))))
    as [args|] eqn:Hargs.
  - assert (call_fragment tc
            = Some (genai.NewPartFromFunctionCall (openai.Name (openai.Function tc))
                      (fix_artifact_names args))) as ->
      by (unfold call_fragment; by rewrite Hargs).
    assert (echoed_call tc
            = Some (tool_call (genai.mkFunctionCall (openai.Name (openai.Function tc))
                                 (fix_artifact_names args)))) as ->
      by (unfold echoed_call; by rewrite Hargs).
    split; [by constructor |]. split; [done |].
    by rewrite unit_calls_cons, IHc.
  - assert (call_fragment tc = None) as ->
      by (unfold call_fragment; by rewrite Hargs).
    assert (echoed_call tc = None) as ->
      by (unfold echoed_call; by rewrite Hargs).
    done.
Qed.

(** X24.  The turn that outbound translation returns, put into the next
    request, is at most one message: an assistant message with the
    reply's text and, for each tool call whose arguments decoded, a
    tool-call record with the identifier "call_" + name (the endpoint's
    own identifier is replaced) and the encoding of the repaired
    arguments; nothing if the reply had neither text nor a decodable
    tool call. *)
Theorem reply_echoes_as_one_assistant_message
    (choice : openai.ChatCompletionChoice) (rest : list openai.ChatCompletionChoice) :
  ∃ response,
    toADKResponse (openai.mkResponse (choice :: rest)) = Ok response
    ∧ toOpenAIMessages [model.Content response] =
        Ok (if decide (openai.Content (openai.Message choice) ≠ ""
                       ∨ omap echoed_call (openai.ToolCalls (openai.Message choice)) ≠ [])
            then [openai.mkMessage "assistant"
                    (openai.Content (openai.Message choice))
                    (omap echoed_call (openai.ToolCalls (openai.Message choice))) ""]
            else []).
Proof.
  eexists. split; [apply toADKResponse_first_choice |].
  rewrite toOpenAIMessages_Ok, conversation_messages_cons.
  destruct (call_fragments_accumulate (openai.ToolCalls (openai.Message choice)))
    as (Hres & Htext & Hcalls).
  rewrite turn_messages_unit; simpl.
  - rewrite unit_text_app, unit_text_fragments, Htext, append_nil_r.
    rewrite unit_calls_app, Hcalls.
    assert (unit_calls (text_fragments (openai.Content (openai.Message choice))) = [])
      as -> by (unfold text_fragments; by case_decide).
    by rewrite app_nil_r.
  - apply Forall_app. split; [| done].
    unfold text_fragments. case_decide; by repeat constructor.
Qed.

End Echo.

(** The reply with an undecodable tool call, echoed. *)
Example salvaged_reply_echo :
  toOpenAIMessages (marshaler := refjson.marshal)
      [genai.mkContent "model"
         [genai.NewPartFromText "Let me look.";
          genai.NewPartFromFunctionCall "search" search_args]] =
    Ok [openai.mkMessage "assistant" "Let me look."
          [openai.mkToolCall "call_search" "function"
             (openai.mkFunctionCall "search" search_args_json)] ""].
Proof. by vm_compute. Qed.

(** What a crowded tool-result fragment leaves on the wire. *)
Example crowded_result_on_the_wire :
  toOpenAIMessages (marshaler := refjson.marshal)
      [genai.mkContent "user" [crowded_result]] =
    Ok [openai.mkMessage "tool" search_result_json [] "call_search"].
Proof. by vm_compute. Qed.
